(** * A shallow embedding of the MISO report client of powerviz

    The Python sources modelled here are [src/powerviz/base.py]
    ([is_retryable_error], [BaseClient]) and [src/powerviz/miso.py]
    ([MISOClient]).  Python exceptions become the [Err] branch of [result];
    network I/O, sleeps, warnings and calls of the parse functions are
    recorded as [event]s in the trace of the [io] monad. *)

From Stdlib Require Import Ascii String List ZArith Lia Sorted.
From stdpp Require Import base list gmap sets strings sorting.

Open Scope string_scope.

(** ** Python exceptions *)

(** The exceptions the modelled code raises or lets through.  aiohttp's
    [ClientResponseError] carries the HTTP status; [ClientConnectionError]
    stands for any instance of [aiohttp.ClientConnectionError] (and of its
    subclasses, named by [conn_cls]); [PyExc] is any other exception, by
    class name and message. *)
Inductive py_exc :=
| ClientResponseError (status : nat)
| ClientConnectionError (conn_cls : string)
| PyExc (cls : string) (msg : string).

Inductive result (A : Type) :=
| Ok (a : A)
| Err (e : py_exc).
Arguments Ok {A} a.
Arguments Err {A} e.

Definition res_bind {A B} (m : result A) (k : A -> result B) : result B :=
  match m with Ok a => k a | Err e => Err e end.

Notation "x <-? m ;; k" := (res_bind m (fun x => k))
  (at level 100, m at next level, right associativity).

(** ** Calendar dates (Python [datetime], year range 1..9999)

    A request date is modelled by the calendar date it has in the operator's
    fixed EST offset, i.e. after [to_native_tz]; the time of day plays no
    part in any file name. *)
Record date := mkDate { year : nat; month : nat; day : nat }.

Definition is_leap (y : nat) : bool :=
  (Nat.eqb (y mod 4) 0 && negb (Nat.eqb (y mod 100) 0)) || Nat.eqb (y mod 400) 0.

Definition days_in_month (y m : nat) : nat :=
  match m with
  | 1 | 3 | 5 | 7 | 8 | 10 | 12 => 31
  | 4 | 6 | 9 | 11 => 30
  | 2 => if is_leap y then 29 else 28
  | _ => 0
  end.

Definition days_in_year (y : nat) : nat := if is_leap y then 366 else 365.

Definition MAXYEAR : nat := 9999.

Definition valid_date (d : date) : Prop :=
  1 <= year d <= MAXYEAR /\ 1 <= month d <= 12 /\
  1 <= day d <= days_in_month (year d) (month d).

(** [date + dt.timedelta(days=1)]: raises [OverflowError] past 9999-12-31. *)
Definition add_one_day (d : date) : result date :=
  if Nat.ltb (day d) (days_in_month (year d) (month d))
  then Ok (mkDate (year d) (month d) (S (day d)))
  else if Nat.ltb (month d) 12
  then Ok (mkDate (year d) (S (month d)) 1)
  else if Nat.ltb (year d) MAXYEAR
  then Ok (mkDate (S (year d)) 1 1)
  else Err (PyExc "OverflowError" "date value out of range").

(** Ordinal day numbers, used to state that [add_one_day] advances by one. *)
Fixpoint days_before_year (y : nat) : nat :=
  match y with 0 => 0 | S y' => days_before_year y' + days_in_year y' end.

Fixpoint days_before_month (y m : nat) : nat :=
  match m with 0 => 0 | S m' => days_before_month y m' + days_in_month y m' end.

Definition day_number (d : date) : nat :=
  days_before_year (year d) + days_before_month (year d) (month d) + day d.

(** Decimal rendering with zero padding, as [strftime]'s [%Y], [%m], [%d]. *)
Definition digit (n : nat) : ascii := ascii_of_nat (48 + n).

Fixpoint digits_aux (fuel n : nat) (acc : string) : string :=
  match fuel with
  | 0 => acc
  | S f =>
      let acc' := String (digit (n mod 10)) acc in
      if Nat.ltb n 10 then acc' else digits_aux f (n / 10) acc'
  end.

Definition digits (n : nat) : string := digits_aux (S n) n "".

Definition zpad (width n : nat) : string :=
  let s := digits n in
  append (String.concat "" (List.repeat "0" (width - String.length s))) s.

Definition strftime_Ymd (d : date) : string :=
  zpad 4 (year d) ++ zpad 2 (month d) ++ zpad 2 (day d).

Definition strftime_Ym (d : date) : string :=
  zpad 4 (year d) ++ zpad 2 (month d).

(** ** Report kinds and file names ([MISOMarketReport],
    [MISOClient.market_report_filename]) *)
Inductive market_report :=
| FORECAST_AND_LOAD
| GENERATION_FUEL_MIX
| DAYAHEAD_EXANTE_LMP
| DAYAHEAD_EXPOST_LMP
| REALTIME_EXANTE_LMP.

Definition all_reports : list market_report :=
  [FORECAST_AND_LOAD; GENERATION_FUEL_MIX; DAYAHEAD_EXANTE_LMP;
   DAYAHEAD_EXPOST_LMP; REALTIME_EXANTE_LMP].

(** [MARKET_REPORT_FILES_SUFFIX_EXT] *)
Definition MARKET_REPORT_FILES_SUFFIX_EXT (r : market_report) : string * string :=
  match r with
  | FORECAST_AND_LOAD => ("df_al", "xls")
  | GENERATION_FUEL_MIX => ("sr_gfm", "xlsx")
  | DAYAHEAD_EXANTE_LMP => ("da_exante_lmp", "csv")
  | DAYAHEAD_EXPOST_LMP => ("da_expost_lmp", "csv")
  | REALTIME_EXANTE_LMP => ("5min_exante_lmp", "xlsx")
  end.

(** Report kinds named by publish date (the day after the market date). *)
Definition uses_publish_date (r : market_report) : bool :=
  match r with
  | FORECAST_AND_LOAD | GENERATION_FUEL_MIX | REALTIME_EXANTE_LMP => true
  | DAYAHEAD_EXANTE_LMP | DAYAHEAD_EXPOST_LMP => false
  end.

Definition market_report_filename (d : date) (r : market_report)
    (is_archived : bool) : result string :=
  d' <-? (if uses_publish_date r then add_one_day d else Ok d) ;;
  let '(suffix, ext) := MARKET_REPORT_FILES_SUFFIX_EXT r in
  if is_archived
  then Ok (strftime_Ym d' ++ "_" ++ (suffix ++ "_" ++ ext) ++ "." ++ "zip")
  else Ok (strftime_Ymd d' ++ "_" ++ suffix ++ "." ++ ext).

(** ** Effects

    [io A] is a computation that leaves a trace of observable events and then
    returns a value or raises.  [EvFetch u] is one HTTP GET of [u] (one retry
    attempt), [EvSleep s] a wait of [s] seconds between attempts,
    [EvWarnDates]/[EvWarnFiles] the two [warnings.warn] calls of the batch
    path (with the dates or file names they list), and [EvParse n] a call of
    the batch parse function on the file named [n]. *)
Inductive event :=
| EvFetch (url : string)
| EvSleep (secs : nat)
| EvWarnDates (missing : list date)
| EvWarnFiles (missing : list string)
| EvParse (name : string).

Definition io (A : Type) : Type := (list event * result A)%type.

Definition io_ret {A} (a : A) : io A := ([], Ok a).
Definition io_raise {A} (e : py_exc) : io A := ([], Err e).
Definition io_lift {A} (r : result A) : io A := ([], r).
Definition io_emit (ev : event) : io unit := ([ev], Ok tt).

Definition io_bind {A B} (m : io A) (k : A -> io B) : io B :=
  match m with
  | (t, Ok a) => let '(t', r) := k a in (app t t', r)
  | (t, Err e) => (t, Err e)
  end.

Notation "x <- m ;; k" := (io_bind m (fun x => k))
  (at level 100, m at next level, right associativity).
Notation "m ;;; k" := (io_bind m (fun _ => k))
  (at level 100, right associativity).

Fixpoint io_mapM {A B} (f : A -> io B) (l : list A) : io (list B) :=
  match l with
  | [] => io_ret []
  | x :: l' => y <- f x ;; ys <- io_mapM f l' ;; io_ret (y :: ys)
  end.

(** ** Retry policy ([is_retryable_error], [BaseClient._fetch]) *)

Definition is_retryable_error (error : py_exc) : bool :=
  match error with
  | ClientResponseError 404 => false
  | ClientConnectionError _ => true
  | _ => false
  end.

Definition WAIT_SECONDS : nat := 10.
Definition MAX_ATTEMPTS : nat := 10.

Section Transport.

(** Response bodies, and the outcome of the [n]-th attempt (from 1) of a GET
    of a url, [raise_for_status=True] included. *)
Variable B : Type.
Variable net : string -> nat -> result B.

(** One tenacity attempt: on failure, an error the predicate rejects is
    raised at once; a retryable one is re-raised when the attempt budget is
    spent ([stop_after_attempt], [reraise=True]), otherwise tenacity sleeps
    [wait_fixed] seconds and tries again. *)
Fixpoint fetch_attempt (url : string) (remaining n : nat) : io B :=
  match net url n with
  | Ok b => ([EvFetch url], Ok b)
  | Err e =>
      if negb (is_retryable_error e) then ([EvFetch url], Err e)
      else match remaining with
           | 0 => ([EvFetch url], Err e)
           | S r =>
               let '(t, res) := fetch_attempt url r (S n) in
               (EvFetch url :: EvSleep WAIT_SECONDS :: t, res)
           end
  end.

Definition _fetch (url : string) : io B :=
  fetch_attempt url (MAX_ATTEMPTS - 1) 1.

Definition check_url_exists (url : string) : io bool :=
  let '(t, r) := _fetch url in
  match r with
  | Ok _ => (t, Ok true)
  | Err (ClientResponseError status) =>
      if Nat.eqb status 404 then (t, Ok false)
      else (t, Err (ClientResponseError status))
  | Err e => (t, Err e)
  end.

End Transport.

Arguments fetch_attempt {B} net url remaining n.
Arguments _fetch {B} net url.
Arguments check_url_exists {B} net url.

(** ** URLs ([BaseClient.urljoin], [str.rsplit]) *)

Fixpoint lstrip_slash (l : list ascii) : list ascii :=
  match l with
  | c :: l' => if Ascii.eqb c "/" then lstrip_slash l' else l
  | [] => []
  end.

Definition strip_slash (s : string) : string :=
  string_of_list_ascii
    (rev (lstrip_slash (rev (lstrip_slash (list_ascii_of_string s))))).

Definition urljoin (args : list string) : string :=
  String.concat "/" (map strip_slash args).

(** [s.rsplit(c, maxsplit=1)[-1]]: the text after the last [c]. *)
Fixpoint after_last_aux (c : ascii) (s : string) (acc : string) : string :=
  match s with
  | EmptyString => acc
  | String x s' =>
      if Ascii.eqb x c then after_last_aux c s' ""
      else after_last_aux c s' (acc ++ String x "")
  end.

Definition after_last (c : ascii) (s : string) : string := after_last_aux c s "".

Definition url_filename (url : string) : string := after_last "/" url.
Definition file_ext (filename : string) : string := after_last "." filename.

Definition BASE_URL : string := "https://docs.misoenergy.org/marketreports".

(** [MISOClient.market_report_url]: [None] when neither file exists. *)
Definition market_report_url {B} (net : string -> nat -> result B)
    (d : date) (report : market_report) : io (option string) :=
  na <- io_lift (market_report_filename d report false) ;;
  let non_archived_url := urljoin [BASE_URL; na] in
  ex <- check_url_exists net non_archived_url ;;
  if ex then io_ret (Some non_archived_url) else
  a <- io_lift (market_report_filename d report true) ;;
  let archived_url := urljoin [BASE_URL; a] in
  ex' <- check_url_exists net archived_url ;;
  if ex' then io_ret (Some archived_url) else io_ret None.

(** ** Tables

    A row of a parsed table: [start] and [end_] are instants in minutes
    since the EST midnight that opens day number 0; [node] is the pricing
    node of the LMP tables ([None] for the families without a node column);
    [vals] are the metric columns in their order, each in hundredths (every
    metric is rounded to two decimals).  The column order of every table
    starts [start, end(, node)]. *)
Record row := mkRow { start : Z; end_ : Z; node : option string; vals : list Z }.

Definition table := list row.

Definition node_compare (a b : option string) : comparison :=
  match a, b with
  | None, None => Eq
  | None, Some _ => Lt
  | Some _, None => Gt
  | Some x, Some y => String.compare x y
  end.

Fixpoint vals_compare (l1 l2 : list Z) : comparison :=
  match l1, l2 with
  | [], [] => Eq
  | [], _ :: _ => Lt
  | _ :: _, [] => Gt
  | x :: l1', y :: l2' =>
      match Z.compare x y with Eq => vals_compare l1' l2' | c => c end
  end.

(** Lexicographic order on the full column tuple. *)
Definition row_compare (r1 r2 : row) : comparison :=
  match Z.compare (start r1) (start r2) with
  | Eq =>
      match Z.compare (end_ r1) (end_ r2) with
      | Eq =>
          match node_compare (node r1) (node r2) with
          | Eq => vals_compare (vals r1) (vals r2)
          | c => c
          end
      | c => c
      end
  | c => c
  end.

Definition row_le (r1 r2 : row) : Prop := row_compare r1 r2 <> Gt.

#[global] Instance row_le_dec : RelDecision row_le.
Proof.
  intros r1 r2; unfold row_le.
  destruct (row_compare r1 r2); [left | left | right]; congruence.
Defined.

(** [df.sort_values(by=df.columns.tolist(), ascending=True)] *)
Definition sort_by_all_columns (t : table) : table := merge_sort row_le t.

(** [pd.concat(dfs)] followed by the sort; [pd.concat([])] raises. *)
Definition concat_and_sort (dfs : list table) : result table :=
  match dfs with
  | [] => Err (PyExc "ValueError" "No objects to concatenate")
  | _ => Ok (sort_by_all_columns (concat dfs))
  end.


(** Minute at which the EST calendar day of a date starts. *)
Definition day_start (d : date) : Z := (Z.of_nat (day_number d) * 1440)%Z.


(** [ZipFile.read(name)]: the entry of the last member of that name
    ([NameToInfo] keeps the last one). *)
Definition zread {B} (zfile : list (string * B)) (name : string) : option B :=
  fold_left (fun acc '(m, b) => if String.eqb m name then Some b else acc)
    zfile None.

(** ** Batch orchestrator
    ([MISOClient.get_all_market_report_urls],
    [MISOClient.retrieve_and_parse_market_report_files]) *)

Fixpoint resolved_pairs (pairs : list (date * option string))
    : list (date * string) :=
  match pairs with
  | [] => []
  | (d, Some u) :: ps => (d, u) :: resolved_pairs ps
  | (_, None) :: ps => resolved_pairs ps
  end.

Fixpoint unresolved_dates (pairs : list (date * option string)) : list date :=
  match pairs with
  | [] => []
  | (d, None) :: ps => d :: unresolved_dates ps
  | (_, Some _) :: ps => unresolved_dates ps
  end.

Fixpoint res_mapM {A C} (f : A -> result C) (l : list A) : result (list C) :=
  match l with
  | [] => Ok []
  | x :: l' => y <-? f x ;; ys <-? res_mapM f l' ;; Ok (y :: ys)
  end.

Section Orchestrator.

Variable B : Type.
Variable net : string -> nat -> result B.
(** [ZipFile(io.BytesIO(data))]: the member list, [None] on a bad archive
    ([BadZipFile]).  Each member comes with the outcome of reading it,
    [Err] when [ZipFile.read] raises on it ([BadZipFile] on a bad header or
    CRC, [zlib.error], [RuntimeError] for an encrypted member,
    [NotImplementedError] for an unknown compression method). *)
Variable unzip : B -> option (list (string * result B)).
(** [asyncio.as_completed] hands the responses over by completion time. *)
Variable finish_time : string -> nat.

Definition finishes_before (u v : string) : Prop := finish_time u <= finish_time v.

#[local] Instance finishes_before_dec : RelDecision finishes_before :=
  fun u v => decide (finish_time u <= finish_time v).

Definition as_completed (urls : list string) : list string :=
  merge_sort finishes_before urls.

Definition get_all_market_report_urls (dates : list date)
    (report : market_report) : io (list (date * string)) :=
  urls <- io_mapM (fun d => market_report_url net d report) dates ;;
  let pairs := combine dates urls in
  let missing_dates := unresolved_dates pairs in
  (match missing_dates with
   | [] => io_ret tt
   | _ => io_emit (EvWarnDates missing_dates)
   end) ;;;
  io_ret (resolved_pairs pairs).

Fixpoint process_members (parse_fn : B -> result table)
    (zfile members : list (string * result B)) (unretrieved_files : gset string)
    (dfs : list table) : io (gset string * list table) :=
  match members with
  | [] => io_ret (unretrieved_files, dfs)
  | (filename, _) :: rest =>
      if bool_decide (filename ∈ unretrieved_files) then
        match zread zfile filename with
        | None => io_raise (PyExc "KeyError" filename)
        | Some (Err e) => io_raise e
        | Some (Ok file_data) =>
            io_emit (EvParse filename) ;;;
            df <- io_lift (parse_fn file_data) ;;
            process_members parse_fn zfile rest
              (unretrieved_files ∖ {[ filename ]}) (app dfs [df])
        end
      else process_members parse_fn zfile rest unretrieved_files dfs
  end.

Definition process_response (parse_fn : B -> result table)
    (unretrieved_files : gset string) (dfs : list table) (url : string)
    : io (gset string * list table) :=
  file_data <- _fetch net url ;;
  let filename := url_filename url in
  let ext := file_ext filename in
  if String.eqb ext "zip" then
    match unzip file_data with
    | None => io_raise (PyExc "BadZipFile" "File is not a zip file")
    | Some zfile => process_members parse_fn zfile zfile unretrieved_files dfs
    end
  else if bool_decide (filename ∈ unretrieved_files) then
    io_emit (EvParse filename) ;;;
    df <- io_lift (parse_fn file_data) ;;
    io_ret (unretrieved_files ∖ {[ filename ]}, app dfs [df])
  else io_raise (PyExc "AssertionError" "").

Fixpoint process_responses (parse_fn : B -> result table) (urls : list string)
    (unretrieved_files : gset string) (dfs : list table)
    : io (gset string * list table) :=
  match urls with
  | [] => io_ret (unretrieved_files, dfs)
  | url :: urls' =>
      st <- process_response parse_fn unretrieved_files dfs url ;;
      process_responses parse_fn urls' (fst st) (snd st)
  end.

Definition retrieve_and_parse_market_report_files (dates : list date)
    (report : market_report) (parse_fn : B -> result table) : io table :=
  urls_dict <- get_all_market_report_urls dates report ;;
  names <- io_lift
    (res_mapM (fun p => market_report_filename (fst p) report false) urls_dict) ;;
  let unretrieved_files : gset string := list_to_set names in
  let urls : gset string := list_to_set (map snd urls_dict) in
  st <- process_responses parse_fn (as_completed (elements urls))
          unretrieved_files [] ;;
  (if bool_decide (fst st = ∅) then io_ret tt
   else io_emit (EvWarnFiles (elements (fst st)))) ;;;
  io_lift (concat_and_sort (snd st)).

End Orchestrator.

Arguments get_all_market_report_urls {B} net dates report.
Arguments process_members {B} parse_fn zfile members unretrieved_files dfs.
Arguments process_response {B} net unzip parse_fn unretrieved_files dfs url.
Arguments process_responses {B} net unzip parse_fn urls unretrieved_files dfs.
Arguments retrieve_and_parse_market_report_files {B} net unzip finish_time
  dates report parse_fn.

(** ** Client facade ([MISOClient.get_*_data])

    The [dates] argument: ["latest"], ["today"], a list of datetimes, or
    anything else (which raises [DatesTypeError]). *)
Inductive dates_spec :=
| DLatest
| DToday
| DList (dates : list date)
| DInvalid.

Definition DatesTypeError : py_exc :=
  PyExc "DatesTypeError"
    "Invalid dates input. dates must be a list of datetimes, latest, or today.".

Definition dq : string := String (ascii_of_nat 34) EmptyString.

Definition fuel_mix_today_error : py_exc :=
  PyExc "NotImplementedError"
    ("Only " ++ dq ++ "latest" ++ dq ++ " and historical data available.").

Definition LOAD_API_URL : string :=
  "https://api.misoenergy.org/MISORTWDDataBroker/DataBrokerServices.asmx?messageType=gettotalload&returnType=json".
Definition FUEL_MIX_API_URL : string :=
  "https://api.misoenergy.org/MISORTWDDataBroker/DataBrokerServices.asmx?messageType=getfuelmix&returnType=json".
Definition LMP_API_URL (interval : string) : string :=
  "https://api.misoenergy.org/MISORTWDBIReporter/Reporter.asmx?messageType="
  ++ interval ++ "&returnType=csv".

(** [df.iloc[-1:]] *)
Definition last_row (t : table) : table :=
  match last t with Some r => [r] | None => [] end.

(** [df[df["start"] == current_hour]] *)
Definition rows_starting_at (h : Z) (t : table) : table :=
  List.filter (fun r => Z.eqb (start r) h) t.

(** The forecast-and-load report has metric columns [forecast, load]:
    [df[["start", "end", "load"]]] and [df[["start", "end", "forecast"]]]. *)
Definition select_load (r : row) : row :=
  mkRow (start r) (end_ r) (node r) (List.skipn 1 (vals r)).
Definition select_forecast (r : row) : row :=
  mkRow (start r) (end_ r) (node r) (List.firstn 1 (vals r)).

Section Facade.

Variable B : Type.
Variable net : string -> nat -> result B.
Variable unzip : B -> option (list (string * result B)).
Variable finish_time : string -> nat.
(** The live-API parsers and the report parsers of [MISOClient]. *)
Variables parse_load_api_data parse_forecast_api_data parse_fuel_mix_api_data
  parse_realtime_expost_lmp_api_data : B -> result table.
Variables parse_forecast_and_load_market_report
  parse_generation_fuel_mix_market_report
  parse_realtime_exante_lmp_market_report
  parse_dayahead_lmp_market_report : B -> result table.
(** [dt.datetime.now(EST)]: its date, and the start of its hour. *)
Variable today : date.
Variable current_hour : Z.

Let retrieve := retrieve_and_parse_market_report_files net unzip finish_time.

Definition get_load_data (dates : dates_spec) : io table :=
  match dates with
  | DLatest | DToday =>
      json_data <- _fetch net LOAD_API_URL ;;
      load_df <- io_lift (parse_load_api_data json_data) ;;
      io_ret (match dates with DLatest => last_row load_df | _ => load_df end)
  | DList ds =>
      load_df <- retrieve ds FORECAST_AND_LOAD
                   parse_forecast_and_load_market_report ;;
      io_ret (map select_load load_df)
  | DInvalid => io_raise DatesTypeError
  end.

Definition get_forecast_data (dates : dates_spec) : io table :=
  match dates with
  | DLatest | DToday =>
      json_data <- _fetch net LOAD_API_URL ;;
      forecast_df <- io_lift (parse_forecast_api_data json_data) ;;
      io_ret (match dates with
              | DLatest => rows_starting_at current_hour forecast_df
              | _ => forecast_df
              end)
  | DList ds =>
      forecast_df <- retrieve ds FORECAST_AND_LOAD
                       parse_forecast_and_load_market_report ;;
      io_ret (map select_forecast forecast_df)
  | DInvalid => io_raise DatesTypeError
  end.

Definition get_fuel_mix_data (dates : dates_spec) : io table :=
  match dates with
  | DToday => io_raise fuel_mix_today_error
  | DLatest =>
      json_data <- _fetch net FUEL_MIX_API_URL ;;
      io_lift (parse_fuel_mix_api_data json_data)
  | DList ds =>
      retrieve ds GENERATION_FUEL_MIX parse_generation_fuel_mix_market_report
  | DInvalid => io_raise DatesTypeError
  end.

Definition get_realtime_lmp_data (dates : dates_spec) : io table :=
  match dates with
  | DLatest | DToday =>
      let interval :=
        match dates with DLatest => "currentinterval" | _ => "rollingmarketday" end in
      csv_data <- _fetch net (LMP_API_URL interval) ;;
      io_lift (parse_realtime_expost_lmp_api_data csv_data)
  | DList ds =>
      retrieve ds REALTIME_EXANTE_LMP parse_realtime_exante_lmp_market_report
  | DInvalid => io_raise DatesTypeError
  end.

(** [price_type] defaults to [DAYAHEAD_EXPOST_LMP]; its [Literal] annotation
    is not checked at run time. *)
Definition get_dayahead_lmp_data (dates : dates_spec)
    (price_type : market_report) : io table :=
  match dates with
  | DLatest | DToday =>
      lmp_df <- retrieve [today] price_type parse_dayahead_lmp_market_report ;;
      io_ret (match dates with
              | DLatest => rows_starting_at current_hour lmp_df
              | _ => lmp_df
              end)
  | DList ds => retrieve ds price_type parse_dayahead_lmp_market_report
  | DInvalid => io_raise DatesTypeError
  end.

(** The five operations, by metric family. *)
Inductive operation :=
| OpLoad | OpForecast | OpFuelMix | OpRealtimeLmp
| OpDayaheadLmp (price_type : market_report).

Definition run_operation (op : operation) (dates : dates_spec) : io table :=
  match op with
  | OpLoad => get_load_data dates
  | OpForecast => get_forecast_data dates
  | OpFuelMix => get_fuel_mix_data dates
  | OpRealtimeLmp => get_realtime_lmp_data dates
  | OpDayaheadLmp p => get_dayahead_lmp_data dates p
  end.




End Facade.

Arguments get_load_data {B} net unzip finish_time
  parse_load_api_data parse_forecast_and_load_market_report dates.
Arguments get_fuel_mix_data {B} net unzip finish_time
  parse_fuel_mix_api_data parse_generation_fuel_mix_market_report dates.

(** ** Live-API payloads ([MISOClient.parse_api_refid_datetime] and the
    JSON parsers that call it) *)
Module LiveApi.

Record datetime := mkDatetime { dt_date : date; dt_hour : nat; dt_minute : nat }.

Definition dt_minutes (t : datetime) : Z :=
  (day_start (dt_date t) + Z.of_nat (60 * dt_hour t + dt_minute t))%Z.

(** Python text ([str]): a sequence of Unicode code points. *)
Definition ustring : Type := list N.

(** The code points of an ASCII literal. *)
Definition ustr (s : string) : ustring := map N_of_ascii (list_ascii_of_string s).

(** The characters [str.split()] separates on ([Py_UNICODE_ISSPACE]):
    U+0009..U+000D, U+001C..U+0020, U+0085, U+00A0, U+1680,
    U+2000..U+200A, U+2028, U+2029, U+202F, U+205F and U+3000. *)
Definition is_space (c : N) : bool :=
  (N.leb 9 c && N.leb c 13) || (N.leb 28 c && N.leb c 32) ||
  N.eqb c 133 || N.eqb c 160 || N.eqb c 5760 ||
  (N.leb 8192 c && N.leb c 8202) || N.eqb c 8232 || N.eqb c 8233 ||
  N.eqb c 8239 || N.eqb c 8287 || N.eqb c 12288.

Fixpoint split_aux (s : ustring) (cur : ustring) : list ustring :=
  match s with
  | [] => match cur with [] => [] | _ => [cur] end
  | c :: s' =>
      if is_space c
      then match cur with
           | [] => split_aux s' []
           | _ => cur :: split_aux s' []
           end
      else split_aux s' (cur ++ [c])%list
  end.

(** [str.split()] with no separator. *)
Definition py_split (s : ustring) : list ustring := split_aux s [].

(** [l[i:j]] for [0 <= i <= j] *)
Definition py_slice {A} (i j : nat) (l : list A) : list A :=
  List.firstn (j - i) (List.skipn i l).

(** [s[:-k]] *)
Definition py_drop_last {A} (k : nat) (l : list A) : list A :=
  List.firstn (length l - k) l.

Section RefId.

(** [dt.datetime.strptime(s, "%d-%b-%Y - Interval %H:%M")] followed by
    [to_native_tz]; only the validation before it matters here. *)
Variable strptime_refid : ustring -> result datetime.

Definition parse_api_refid_datetime (refid_str : ustring) : result datetime :=
  let refid_split := py_split refid_str in
  match last refid_split with
  | None => Err (PyExc "IndexError" "list index out of range")
  | Some tok =>
      if negb (bool_decide (tok = ustr "EST"))
         || negb (bool_decide (py_slice 1 3 refid_split = [ustr "-"; ustr "Interval"]))
      then Err (PyExc "ValueError" "Invalid refid string.")
      else strptime_refid (py_drop_last 4 refid_str)
  end.

(** [json.load] of the [gettotalload] payload: the reference id, the
    five-minute loads as [(hour, minute, value)] and the hourly forecasts as
    [(hour_ending, value)]. *)
Record load_json := mkLoadJson {
  RefId : ustring;
  FiveMinTotalLoad : list (nat * nat * Z);
  MediumTermLoadForecast : list (nat * Z) }.

(** [date.replace(hour=.., minute=..)] raises on an hour or minute out of
    range, the hour checked first. *)
Definition replace_time (d : date) (h m : nat) : result Z :=
  if negb (Nat.ltb h 24) then Err (PyExc "ValueError" "hour must be in 0..23")
  else if negb (Nat.ltb m 60) then Err (PyExc "ValueError" "minute must be in 0..59")
  else Ok (day_start d + Z.of_nat (60 * h + m))%Z.

Definition start_le (r1 r2 : row) : Prop := (start r1 <= start r2)%Z.

#[local] Instance start_le_dec : RelDecision start_le :=
  fun r1 r2 => decide (start r1 <= start r2)%Z.

(** [pd.DataFrame(data).sort_values(by="start", ascending=True)]: with no
    row the frame has no [start] column and pandas raises [KeyError]. *)
Definition frame_sorted_by_start (rows : table) : result table :=
  match rows with
  | [] => Err (PyExc "KeyError" "start")
  | _ => Ok (merge_sort start_le rows)
  end.

Definition parse_load_api_data (load_json : load_json) : result table :=
  refid <-? parse_api_refid_datetime (RefId load_json) ;;
  let date := dt_date refid in
  rows <-? res_mapM (fun '(h, m, load) =>
             s <-? replace_time date h m ;;
             Ok (mkRow s (s + 5)%Z None [(100 * load)%Z]))
           (FiveMinTotalLoad load_json) ;;
  frame_sorted_by_start rows.

(** [hour = int(HourEnding) - 1]: an hour ending of 0 gives hour [-1],
    which [date.replace] rejects. *)
Definition parse_forecast_api_data (forecast_json : load_json) : result table :=
  refid <-? parse_api_refid_datetime (RefId forecast_json) ;;
  let date := dt_date refid in
  rows <-? res_mapM (fun '(he, forecast) =>
             s <-? (if Nat.eqb he 0
                    then Err (PyExc "ValueError" "hour must be in 0..23")
                    else replace_time date (he - 1) 0) ;;
             Ok (mkRow s (s + 60)%Z None [(100 * forecast)%Z]))
           (MediumTermLoadForecast forecast_json) ;;
  frame_sorted_by_start rows.

(** [json.load] of the [getfuelmix] payload: its top-level [RefId]; the
    rest of the payload ([Fuel.Type], [TotalMW]) is kept opaque. *)
Record fuel_mix_json {Rest : Type} := mkFuelMixJson {
  FmRefId : ustring;
  FmRest : Rest }.

(** The lines of [parse_fuel_mix_api_data] after the reference id: [end],
    the loop over [Fuel.Type] (with its [strptime], its
    [assert datetime == start] and its [float] calls), [TotalMW] and the
    one-row DataFrame, as a function of [start] and the payload. *)
Variable Rest : Type.
Variable fuel_mix_frame : datetime -> Rest -> result table.

Definition parse_fuel_mix_api_data (fuel_mix_json : @fuel_mix_json Rest)
    : result table :=
  start <-? parse_api_refid_datetime (FmRefId fuel_mix_json) ;;
  fuel_mix_frame start (FmRest fuel_mix_json).

End RefId.

End LiveApi.

(** ** Lifetime of the HTTP session ([BaseClient.__init__])

    The state of a client's [aiohttp.ClientSession] and of the interpreter's
    [atexit] registry.  A client call runs the embedded method against the
    session; what the call does to the session is read off the events of
    its trace. *)
Module Lifecycle.

Inductive exit_hook := RunSessionClose.

Record state := mkState { session_open : bool; atexit_hooks : list exit_hook }.

(** The public methods of the client a caller can invoke. *)
Inductive call :=
| Operation (op : operation) (dates : dates_spec)   (* [get_*_data] *)
| Fetch (url : string)                              (* [_fetch] *)
| CheckUrlExists (url : string)                     (* [check_url_exists] *)
| MarketReportUrl (d : date) (r : market_report).   (* [market_report_url] *)

Inductive action :=
| ClientCall (c : call)
| CallerClosesSession                      (* [await client.session.close()] *)
| InterpreterExit.                         (* [atexit] runs its hooks *)

(** [__init__]: a fresh session when none is passed, and in both cases
    [atexit.register(asyncio.run, self.session.close())]. *)
Definition init (s : state) : state :=
  mkState true (atexit_hooks s ++ [RunSessionClose])%list.

Definition run_hook (h : exit_hook) (s : state) : state :=
  match h with RunSessionClose => mkState false (atexit_hooks s) end.

(** What an event of a call does to the session: a request
    ([self.session.get]), a tenacity sleep, a [warnings.warn] or a parser
    call leaves it open or closed as it was.  These are all the effects of
    the embedded methods: none of them calls [self.session.close()]. *)
Definition session_after_event (open : bool) (ev : event) : bool :=
  match ev with
  | EvFetch _ | EvSleep _ | EvWarnDates _ | EvWarnFiles _ | EvParse _ => open
  end.

Section Client.

Variable B : Type.
(** The server, as a request through an open session sees it. *)
Variable net : string -> nat -> result B.
Variable unzip : B -> option (list (string * result B)).
Variable finish_time : string -> nat.
Variables p1 p2 p3 p4 p5 p6 p7 p8 : B -> result table.
Variable today : date.
Variable current_hour : Z.

(** [self.session.get] on an open session, and on a closed one, which
    raises [RuntimeError("Session is closed")] before any request. *)
Definition session_net (open : bool) : string -> nat -> result B :=
  fun url n => if open then net url n
               else Err (PyExc "RuntimeError" "Session is closed").

(** The events of a client call made while the session is [open]. *)
Definition call_trace (c : call) (open : bool) : list event :=
  match c with
  | Operation op ds =>
      fst (run_operation B (session_net open) unzip finish_time
             p1 p2 p3 p4 p5 p6 p7 p8 today current_hour op ds)
  | Fetch url => fst (_fetch (session_net open) url)
  | CheckUrlExists url => fst (check_url_exists (session_net open) url)
  | MarketReportUrl d r => fst (market_report_url (session_net open) d r)
  end.

Definition step (a : action) (s : state) : state :=
  match a with
  | ClientCall c =>
      mkState (fold_left session_after_event
                 (call_trace c (session_open s)) (session_open s))
              (atexit_hooks s)
  | CallerClosesSession => mkState false (atexit_hooks s)
  | InterpreterExit =>
      let s' := fold_right run_hook s (atexit_hooks s) in
      mkState (session_open s') []
  end.

Definition run (acts : list action) (s : state) : state :=
  fold_left (fun st a => step a st) acts s.

End Client.

Arguments session_net {B} net open.

Definition fresh : state := mkState false [].

End Lifecycle.

(** * Properties *)

#[global] Instance market_report_eq_dec : EqDecision market_report.
Proof. solve_decision. Defined.

(** ** Dates *)

Lemma days_in_month_ge_28 (y m : nat) :
  1 <= m <= 12 -> 28 <= days_in_month y m.
Proof.
  intros Hm. unfold days_in_month.
  destruct m as [|m]; [lia|].
  do 12 (destruct m as [|m]; [try destruct (is_leap y); lia|]).
  lia.
Qed.

Lemma days_before_december (y : nat) :
  days_before_month y 12 + 31 = days_in_year y.
Proof.
  unfold days_in_year; simpl; destruct (is_leap y); reflexivity.
Qed.

Lemma add_one_day_spec (d : date) :
  valid_date d -> d <> mkDate MAXYEAR 12 31 ->
  exists d', add_one_day d = Ok d' /\ valid_date d' /\
             day_number d' = S (day_number d).
Proof.
  destruct d as [y m dd]; unfold valid_date, add_one_day, day_number;
    cbn [year month day].
  intros (Hy & Hm & Hd) Hmax.
  destruct (Nat.ltb_spec dd (days_in_month y m)).
  { eexists; split; [reflexivity|]; cbn [year month day]; lia. }
  assert (dd = days_in_month y m) by lia; subst dd.
  destruct (Nat.ltb_spec m 12).
  { eexists; split; [reflexivity|]; cbn [year month day days_before_month].
    pose proof (days_in_month_ge_28 y (S m) ltac:(lia)). lia. }
  assert (m = 12) by lia; subst m.
  change (days_in_month y 12) with 31 in *.
  remember MAXYEAR as M eqn:HM.
  destruct (Nat.ltb_spec y M).
  { eexists; split; [reflexivity|]; cbn [year month day].
    change (days_before_year (S y)) with (days_before_year y + days_in_year y).
    change (days_before_month (S y) 1) with 0.
    change (days_in_month (S y) 1) with 31.
    pose proof (days_before_december y). lia. }
  exfalso; apply Hmax; f_equal; lia.
Qed.

Definition valid_dateb (d : date) : bool :=
  Nat.leb 1 (year d) && Nat.leb (year d) MAXYEAR &&
  Nat.leb 1 (month d) && Nat.leb (month d) 12 &&
  Nat.leb 1 (day d) && Nat.leb (day d) (days_in_month (year d) (month d)).

Lemma valid_date_check (d : date) : valid_dateb d = true -> valid_date d.
Proof.
  unfold valid_dateb, valid_date.
  intros H; repeat rewrite andb_true_iff in H.
  destruct H as [[[[[H1 H2] H3] H4] H5] H6].
  apply Nat.leb_le in H1, H2, H3, H4, H5, H6. lia.
Qed.

(** ** Retry policy *)

Fixpoint retry_trace (url : string) (n : nat) : list event :=
  match n with
  | 0 => []
  | S 0 => [EvFetch url]
  | S n' => EvFetch url :: EvSleep WAIT_SECONDS :: retry_trace url n'
  end.

Lemma is_retryable_error_conn (e : py_exc) :
  is_retryable_error e = true -> exists c, e = ClientConnectionError c.
Proof.
  destruct e as [s|c|cls msg]; simpl; [destruct s; try discriminate|eauto|discriminate].
  repeat (destruct s; try discriminate).
Qed.

Lemma fetch_attempt_spec {B} (net : string -> nat -> result B) url rem n :
  exists m, 1 <= m <= S rem /\
    fst (fetch_attempt net url rem n) = retry_trace url m /\
    (forall k, n <= k < n + m - 1 -> exists c, net url k = Err (ClientConnectionError c)) /\
    snd (fetch_attempt net url rem n) = net url (n + m - 1) /\
    (m < S rem -> match net url (n + m - 1) with
                  | Ok _ => True
                  | Err e => is_retryable_error e = false
                  end).
Proof.
  revert n; induction rem as [|rem IH]; intros n; simpl.
  - destruct (net url n) as [b|e] eqn:Hn;
      [|destruct (negb (is_retryable_error e))];
      exists 1; rewrite Nat.add_sub; simpl;
      (split; [lia|]); (split; [reflexivity|]);
      (split; [intros k Hk; lia|]); split; auto; intros; lia.
  - destruct (net url n) as [b|e] eqn:Hn.
    + exists 1; rewrite Nat.add_sub, Hn; simpl.
      repeat split; auto; intros; lia.
    + destruct (is_retryable_error e) eqn:Hr; simpl.
      * destruct (IH (S n)) as (m & Hm & Ht & Hc & Hs & Hl).
        destruct (fetch_attempt net url rem (S n)) as [t res] eqn:Hf; simpl in *.
        exists (S m); split; [lia|].
        split; [destruct m; [lia|]; rewrite Ht; reflexivity|].
        split; [|split; [rewrite Hs; f_equal; lia|]].
        -- intros k Hk. destruct (Nat.eq_dec k n) as [->|Hkn].
           ++ apply is_retryable_error_conn in Hr as [c ->]; eauto.
           ++ apply Hc; lia.
        -- intros Hlt. replace (n + S m - 1) with (S n + m - 1) by lia.
           apply Hl; lia.
      * exists 1; rewrite Nat.add_sub, Hn; simpl.
        repeat split; auto; intros; lia.
Qed.

(** ** C6: candidate file names *)

(** Claim C6 (as amended): the report-kind table has five entries, three of
    them named by publish date; for every valid date, except 9999-12-31 for a
    publish-date kind, the unarchived candidate is
    [{d:YYYYMMDD}_{suffix}.{ext}] and the archived one
    [{d:YYYYMM}_{suffix}_{ext}.zip], where [d] is the date advanced by
    exactly one day for the publish-date kinds and the date itself
    otherwise. *)
Theorem market_report_filename_candidates (d : date) (r : market_report) :
  valid_date d ->
  (uses_publish_date r = true -> d <> mkDate MAXYEAR 12 31) ->
  length all_reports = 5 /\ NoDup all_reports /\
  (forall r' : market_report, In r' all_reports) /\
  length (List.filter uses_publish_date all_reports) = 3 /\
  exists d', valid_date d' /\
    day_number d' = day_number d + (if uses_publish_date r then 1 else 0) /\
    market_report_filename d r false =
      Ok (strftime_Ymd d' ++ "_" ++ fst (MARKET_REPORT_FILES_SUFFIX_EXT r)
          ++ "." ++ snd (MARKET_REPORT_FILES_SUFFIX_EXT r)) /\
    market_report_filename d r true =
      Ok (strftime_Ym d' ++ "_" ++ fst (MARKET_REPORT_FILES_SUFFIX_EXT r)
          ++ "_" ++ snd (MARKET_REPORT_FILES_SUFFIX_EXT r) ++ ".zip").
Proof.
  intros Hd Hmax.
  split; [reflexivity|].
  split.
  { apply (bool_decide_unpack _); vm_compute; reflexivity. }
  split; [intros []; simpl; tauto|].
  split; [reflexivity|].
  unfold market_report_filename.
  destruct (uses_publish_date r) eqn:Hp.
  - destruct (add_one_day_spec d Hd (Hmax eq_refl)) as (d' & Ha & Hv & Hn).
    exists d'; rewrite Ha; split; [exact Hv|]; split; [lia|].
    destruct r; try discriminate Hp; split; reflexivity.
  - exists d; split; [exact Hd|]; split; [lia|].
    destruct r; try discriminate Hp; split; reflexivity.
Qed.

Lemma market_report_filename_candidates_witness :
  valid_date (mkDate 2024 2 28) /\
  (uses_publish_date FORECAST_AND_LOAD = true ->
   mkDate 2024 2 28 <> mkDate MAXYEAR 12 31) /\
  exists d', valid_date d' /\
    day_number d' = day_number (mkDate 2024 2 28) + 1 /\
    market_report_filename (mkDate 2024 2 28) FORECAST_AND_LOAD false =
      Ok (strftime_Ymd d' ++ "_df_al.xls") /\
    market_report_filename (mkDate 2024 2 28) FORECAST_AND_LOAD true =
      Ok (strftime_Ym d' ++ "_df_al_xls.zip").
Proof.
  assert (Hv : valid_date (mkDate 2024 2 28))
    by (apply valid_date_check; vm_compute; reflexivity).
  assert (Hm : uses_publish_date FORECAST_AND_LOAD = true ->
               mkDate 2024 2 28 <> mkDate MAXYEAR 12 31)
    by (intros _ Heq; injection Heq; intros _ Hm _; discriminate Hm).
  split; [exact Hv|]; split; [exact Hm|].
  destruct (market_report_filename_candidates (mkDate 2024 2 28)
              FORECAST_AND_LOAD Hv Hm) as (_ & _ & _ & _ & H).
  exact H.
Defined.

(** Claim C6 fails at the last representable date: advancing 9999-12-31 by
    one day raises [OverflowError], so a publish-date kind has no candidate
    file name there. *)
Lemma market_report_filename_overflow :
  valid_date (mkDate 9999 12 31) /\
  market_report_filename (mkDate 9999 12 31) FORECAST_AND_LOAD false =
    Err (PyExc "OverflowError" "date value out of range") /\
  market_report_filename (mkDate 9999 12 31) FORECAST_AND_LOAD true =
    Err (PyExc "OverflowError" "date value out of range").
Proof.
  split; [apply valid_date_check; vm_compute; reflexivity|].
  split; vm_compute; reflexivity.
Qed.

(** ** Monad laws used below *)

Lemma io_bind_ok {A C} (t : list event) (a : A) (k : A -> io C) :
  io_bind (t, Ok a) k = (app t (fst (k a)), snd (k a)).
Proof. unfold io_bind; destruct (k a); reflexivity. Qed.

Lemma io_bind_err {A C} (t : list event) (e : py_exc) (k : A -> io C) :
  io_bind (t, Err e) k = (t, Err e).
Proof. reflexivity. Qed.

(** ** C2: URL resolution *)

(** Both candidate names exist for every valid date, except 9999-12-31 for
    a kind named by publish date. *)
Lemma market_report_filename_ok (d : date) (r : market_report) (a : bool) :
  valid_date d -> ~ (uses_publish_date r = true /\ d = mkDate MAXYEAR 12 31) ->
  exists n, market_report_filename d r a = Ok n.
Proof.
  intros Hv Hn. unfold market_report_filename.
  destruct (uses_publish_date r) eqn:Hu.
  - destruct (add_one_day_spec d Hv) as (d' & -> & _);
      [intros ->; apply Hn; auto|].
    cbn [res_bind]. destruct (MARKET_REPORT_FILES_SUFFIX_EXT r), a; eauto.
  - cbn [res_bind]. destruct (MARKET_REPORT_FILES_SUFFIX_EXT r), a; eauto.
Qed.

(** Claim C2 fails at the last representable date: for a kind named by
    publish date, [market_report_url] raises [OverflowError] while building
    the first candidate name, before any probe. *)
Lemma market_report_url_overflow :
  market_report_url (fun _ _ => @Ok unit tt) (mkDate 9999 12 31)
    FORECAST_AND_LOAD =
  ([], Err (PyExc "OverflowError" "date value out of range")).
Proof. vm_compute. reflexivity. Qed.

(** Claim C2 (amended): for a valid date, other than 9999-12-31 with a kind
    named by publish date, [market_report_url] probes the unarchived
    candidate first and returns it when it exists; only when that probe
    answers 404 does it probe the archived candidate, returned when it
    exists; when both answer 404 it returns [None] and raises nothing.  A
    probe that fails otherwise propagates its error.  In particular, when
    both candidates exist the unarchived URL is returned. *)
Theorem market_report_url_precedence {B} (net : string -> nat -> result B)
    (d : date) (r : market_report) (Hv : valid_date d)
    (Hmax : ~ (uses_publish_date r = true /\ d = mkDate MAXYEAR 12 31)) :
  exists n1 n2,
  market_report_filename d r false = Ok n1 /\
  market_report_filename d r true = Ok n2 /\
  market_report_url net d r =
    match check_url_exists net (urljoin [BASE_URL; n1]) with
    | (t1, Ok true) => (t1, Ok (Some (urljoin [BASE_URL; n1])))
    | (t1, Ok false) =>
        match check_url_exists net (urljoin [BASE_URL; n2]) with
        | (t2, Ok true) => (app t1 t2, Ok (Some (urljoin [BASE_URL; n2])))
        | (t2, Ok false) => (app t1 t2, Ok None)
        | (t2, Err e) => (app t1 t2, Err e)
        end
    | (t1, Err e) => (t1, Err e)
    end /\
  (forall t1 t2,
     check_url_exists net (urljoin [BASE_URL; n1]) = (t1, Ok true) ->
     check_url_exists net (urljoin [BASE_URL; n2]) = (t2, Ok true) ->
     snd (market_report_url net d r) = Ok (Some (urljoin [BASE_URL; n1]))).
Proof.
  destruct (market_report_filename_ok d r false Hv Hmax) as [n1 H1].
  destruct (market_report_filename_ok d r true Hv Hmax) as [n2 H2].
  exists n1, n2. split; [exact H1|]. split; [exact H2|].
  assert (Heq : market_report_url net d r =
    match check_url_exists net (urljoin [BASE_URL; n1]) with
    | (t1, Ok true) => (t1, Ok (Some (urljoin [BASE_URL; n1])))
    | (t1, Ok false) =>
        match check_url_exists net (urljoin [BASE_URL; n2]) with
        | (t2, Ok true) => (app t1 t2, Ok (Some (urljoin [BASE_URL; n2])))
        | (t2, Ok false) => (app t1 t2, Ok None)
        | (t2, Err e) => (app t1 t2, Err e)
        end
    | (t1, Err e) => (t1, Err e)
    end).
  { unfold market_report_url, io_lift. rewrite H1, io_bind_ok. cbn [app fst snd].
    destruct (check_url_exists net (urljoin [BASE_URL; n1])) as [t1 [[|]|e]].
    - rewrite io_bind_ok; cbn; rewrite app_nil_r; reflexivity.
    - rewrite io_bind_ok. rewrite H2, io_bind_ok. cbn [app fst snd].
      destruct (check_url_exists net (urljoin [BASE_URL; n2])) as [t2 [[|]|e]];
        cbn; rewrite ?app_nil_r; reflexivity.
    - reflexivity. }
  split; [exact Heq|].
  intros t1 t2 E1 E2. rewrite Heq, E1. reflexivity.
Qed.

Lemma market_report_url_precedence_witness :
  valid_date (mkDate 2024 1 4) /\
  ~ (uses_publish_date DAYAHEAD_EXPOST_LMP = true /\
     mkDate 2024 1 4 = mkDate MAXYEAR 12 31) /\
  snd (market_report_url (fun _ _ => Ok tt) (mkDate 2024 1 4)
         DAYAHEAD_EXPOST_LMP) =
    Ok (Some (urljoin [BASE_URL; "20240104_da_expost_lmp.csv"])).
Proof.
  assert (Hv : valid_date (mkDate 2024 1 4))
    by (apply valid_date_check; vm_compute; reflexivity).
  assert (Hm : ~ (uses_publish_date DAYAHEAD_EXPOST_LMP = true /\
                  mkDate 2024 1 4 = mkDate MAXYEAR 12 31))
    by (intros [H _]; discriminate H).
  split; [exact Hv|]; split; [exact Hm|].
  destruct (market_report_url_precedence (fun _ _ => Ok tt) _ _ Hv Hm)
    as (n1 & n2 & H1 & H2 & _ & Hboth).
  assert (E1 : n1 = "20240104_da_expost_lmp.csv").
  { assert (C : market_report_filename (mkDate 2024 1 4) DAYAHEAD_EXPOST_LMP
                  false = Ok "20240104_da_expost_lmp.csv") by reflexivity.
    rewrite C in H1; injection H1 as <-; reflexivity. }
  assert (E2 : n2 = "202401_da_expost_lmp_csv.zip").
  { assert (C : market_report_filename (mkDate 2024 1 4) DAYAHEAD_EXPOST_LMP
                  true = Ok "202401_da_expost_lmp_csv.zip") by reflexivity.
    rewrite C in H2; injection H2 as <-; reflexivity. }
  subst n1 n2.
  apply (Hboth [EvFetch (urljoin [BASE_URL; "20240104_da_expost_lmp.csv"])]
               [EvFetch (urljoin [BASE_URL; "202401_da_expost_lmp_csv.zip"])]);
    reflexivity.
Defined.

(** ** C5: retry policy *)

(** Claim C5: a fetch makes between 1 and 10 attempts, separated by waits of
    exactly 10 seconds; every attempt that is followed by another one failed
    with a connection-level error ([aiohttp.ClientConnectionError]); an
    attempt that fails otherwise, e.g. with HTTP 404, ends the fetch; and the
    outcome is exactly that of the last attempt, its error re-raised as is.
    A 404 on the first attempt is re-raised after that single attempt. *)
Theorem fetch_retry_policy {B} (net : string -> nat -> result B) (url : string) :
  (exists n, 1 <= n <= MAX_ATTEMPTS /\
     fst (_fetch net url) = retry_trace url n /\
     (forall k, 1 <= k < n ->
        exists c, net url k = Err (ClientConnectionError c)) /\
     snd (_fetch net url) = net url n /\
     (n < MAX_ATTEMPTS ->
        match net url n with
        | Ok _ => True
        | Err e => is_retryable_error e = false
        end)) /\
  (net url 1 = Err (ClientResponseError 404) ->
     _fetch net url = ([EvFetch url], Err (ClientResponseError 404))).
Proof.
  destruct (fetch_attempt_spec net url (MAX_ATTEMPTS - 1) 1)
    as (m & Hm & Ht & Hc & Hs & Hl).
  unfold _fetch. split.
  - exists m. unfold MAX_ATTEMPTS in *; simpl in Hm.
    replace (1 + m - 1) with m in * by lia.
    split; [lia|]; split; [exact Ht|]; split; [intros k Hk; apply Hc; lia|].
    split; [exact Hs|]. intros Hlt; apply Hl; lia.
  - intros H404.
    assert (m = 1).
    { destruct (Nat.eq_dec m 1) as [|Hne]; [assumption|].
      destruct (Hc 1 ltac:(lia)) as [c Hc1]. congruence. }
    subst m. replace (1 + 1 - 1) with 1 in Hs by lia.
    destruct (fetch_attempt net url (MAX_ATTEMPTS - 1) 1) as [t res].
    simpl in Ht, Hs; subst; rewrite H404; reflexivity.
Qed.

(** ** C7: fuel mix for "today" *)

(** Claim C7 (as amended): [get_fuel_mix_data "today"] raises
    [NotImplementedError('Only "latest" and historical data available.')]
    before any event, in particular before any network call. *)
Theorem fuel_mix_today_unsupported {B} (net : string -> nat -> result B)
    unzip finish_time parse_fuel_mix_api_data
    parse_generation_fuel_mix_market_report :
  get_fuel_mix_data net unzip finish_time parse_fuel_mix_api_data
    parse_generation_fuel_mix_market_report DToday =
  ([], Err (PyExc "NotImplementedError"
              ("Only " ++ dq ++ "latest" ++ dq ++
               " and historical data available."))).
Proof. reflexivity. Qed.

(** Claim C7 names the error [UnsupportedModeError]; the code raises
    Python's built-in [NotImplementedError] instead. *)
Lemma fuel_mix_today_not_UnsupportedModeError :
  ~ exists msg,
      snd (get_fuel_mix_data (B := unit) (fun _ _ => Ok tt) (fun _ => None)
             (fun _ => 0) (fun _ => Ok []) (fun _ => Ok []) DToday) =
      Err (PyExc "UnsupportedModeError" msg).
Proof. intros [msg H]. discriminate H. Qed.

(** ** C10: an empty list of dates *)

(** Claim C10: every operation accepts an empty list of dates, performs no
    fetch (its trace is empty) and raises the [ValueError] of [pd.concat]
    on zero tables instead of returning an empty table. *)
Theorem empty_history_raises {B} (net : string -> nat -> result B) unzip
    finish_time p1 p2 p3 p4 p5 p6 p7 p8 today current_hour (op : operation) :
  run_operation B net unzip finish_time p1 p2 p3 p4 p5 p6 p7 p8 today
    current_hour op (DList []) =
  ([], Err (PyExc "ValueError" "No objects to concatenate")).
Proof. destruct op; reflexivity. Qed.

(** ** The batch orchestrator *)

(** The files handed to the parse function, in order. *)
Fixpoint parsed_names (tr : list event) : list string :=
  match tr with
  | [] => []
  | EvParse n :: tr' => n :: parsed_names tr'
  | _ :: tr' => parsed_names tr'
  end.

Lemma parsed_names_app (t1 t2 : list event) :
  parsed_names (app t1 t2) = app (parsed_names t1) (parsed_names t2).
Proof. induction t1 as [|[] t1 IH]; simpl; rewrite ?IH; reflexivity. Qed.

Lemma io_bind_fst {A C} (m : io A) (k : A -> io C) :
  fst (io_bind m k) =
  app (fst m) (match snd m with Ok a => fst (k a) | Err _ => [] end).
Proof.
  destruct m as [t [a|e]]; [rewrite io_bind_ok|]; simpl; rewrite ?app_nil_r;
    reflexivity.
Qed.

Lemma io_bind_snd {A C} (m : io A) (k : A -> io C) :
  snd (io_bind m k) = match snd m with Ok a => snd (k a) | Err e => Err e end.
Proof. destruct m as [t [a|e]]; [rewrite io_bind_ok|]; reflexivity. Qed.

Lemma io_bind_parsed {A C} (m : io A) (k : A -> io C) :
  parsed_names (fst (io_bind m k)) =
  app (parsed_names (fst m))
      (match snd m with Ok a => parsed_names (fst (k a)) | Err _ => [] end).
Proof.
  rewrite io_bind_fst, parsed_names_app. destruct (snd m); reflexivity.
Qed.

Lemma fetch_attempt_no_parse {B} (net : string -> nat -> result B) url rem n :
  parsed_names (fst (fetch_attempt net url rem n)) = [].
Proof.
  revert n; induction rem as [|rem IH]; intros n; simpl.
  - destruct (net url n) as [b|e]; [|destruct (negb (is_retryable_error e))];
      reflexivity.
  - destruct (net url n) as [b|e]; [reflexivity|].
    destruct (negb (is_retryable_error e)); [reflexivity|].
    specialize (IH (S n)).
    destruct (fetch_attempt net url rem (S n)); simpl in *; exact IH.
Qed.

Lemma check_url_exists_no_parse {B} (net : string -> nat -> result B) url :
  parsed_names (fst (check_url_exists net url)) = [].
Proof.
  pose proof (fetch_attempt_no_parse net url (MAX_ATTEMPTS - 1) 1) as H.
  unfold check_url_exists, _fetch.
  destruct (fetch_attempt net url (MAX_ATTEMPTS - 1) 1) as [t [b|[s|c|cls msg]]];
    simpl in *; try destruct (Nat.eqb s 404); exact H.
Qed.

Lemma market_report_url_no_parse {B} (net : string -> nat -> result B) d r :
  parsed_names (fst (market_report_url net d r)) = [].
Proof.
  unfold market_report_url.
  rewrite io_bind_parsed; cbn [io_lift fst snd parsed_names app].
  destruct (market_report_filename d r false) as [n1|]; [|reflexivity].
  rewrite io_bind_parsed, check_url_exists_no_parse; cbn [app].
  destruct (snd (check_url_exists net _)) as [[]|]; [reflexivity| |reflexivity].
  rewrite io_bind_parsed; cbn [io_lift fst snd parsed_names app].
  destruct (market_report_filename d r true) as [n2|]; [|reflexivity].
  rewrite io_bind_parsed, check_url_exists_no_parse; cbn [app].
  destruct (snd (check_url_exists net _)) as [[]|]; reflexivity.
Qed.

Lemma io_mapM_no_parse {A C} (f : A -> io C) (l : list A) :
  (forall x, parsed_names (fst (f x)) = []) ->
  parsed_names (fst (io_mapM f l)) = [].
Proof.
  intros Hf; induction l as [|x l IH]; [reflexivity|]; simpl.
  rewrite io_bind_parsed, Hf; cbn [app].
  destruct (snd (f x)); [|reflexivity].
  rewrite io_bind_parsed, IH; cbn [app].
  destruct (snd (io_mapM f l)); reflexivity.
Qed.

Lemma io_mapM_ok {A C} (f : A -> io C) (l : list A) (ys : list C) :
  snd (io_mapM f l) = Ok ys -> Forall2 (fun x y => snd (f x) = Ok y) l ys.
Proof.
  revert ys; induction l as [|x l IH]; intros ys; simpl.
  - intros H; injection H as <-; constructor.
  - rewrite io_bind_snd; destruct (snd (f x)) as [y|] eqn:Hx; [|discriminate].
    rewrite io_bind_snd; destruct (snd (io_mapM f l)) as [ys'|] eqn:Hl;
      [|discriminate].
    simpl; intros H; injection H as <-. constructor; auto.
Qed.

Lemma resolved_pairs_In (ps : list (date * option string)) d u :
  In (d, u) (resolved_pairs ps) <-> In (d, Some u) ps.
Proof.
  induction ps as [|[d' [u'|]] ps IH]; simpl; [tauto| |].
  - rewrite IH; split; intros [H|H]; auto; left; congruence.
  - rewrite IH; split; [auto|intros [H|H]; [discriminate|auto]].
Qed.

Lemma combine_Forall2_In {A C} (P : A -> C -> Prop) xs ys x y :
  Forall2 P xs ys -> In (x, y) (combine xs ys) -> In x xs /\ P x y.
Proof.
  intros H; induction H as [|x' y' xs ys Hp Hr IH]; simpl; [tauto|].
  intros [Heq|Hin]; [injection Heq as -> ->; auto|].
  destruct (IH Hin); auto.
Qed.

Lemma get_all_market_report_urls_sound {B} (net : string -> nat -> result B)
    dates r dict :
  snd (get_all_market_report_urls net dates r) = Ok dict ->
  forall d u, In (d, u) dict ->
    In d dates /\ snd (market_report_url net d r) = Ok (Some u).
Proof.
  unfold get_all_market_report_urls. rewrite io_bind_snd.
  destruct (snd (io_mapM _ dates)) as [urls|] eqn:Hm; [|discriminate].
  apply io_mapM_ok in Hm.
  rewrite io_bind_snd.
  destruct (unresolved_dates (combine dates urls));
    simpl; intros H; injection H as <-; intros d0 u0 Hin;
    apply resolved_pairs_In in Hin;
    exact (combine_Forall2_In _ _ _ _ _ Hm Hin).
Qed.

Lemma get_all_market_report_urls_no_parse {B} (net : string -> nat -> result B)
    dates r :
  parsed_names (fst (get_all_market_report_urls net dates r)) = [].
Proof.
  unfold get_all_market_report_urls.
  rewrite io_bind_parsed, io_mapM_no_parse
    by (intros x; apply market_report_url_no_parse).
  cbn [app]. destruct (snd (io_mapM _ dates)) as [urls|]; [|reflexivity].
  rewrite io_bind_parsed.
  destruct (unresolved_dates (combine dates urls)); reflexivity.
Qed.

Lemma res_mapM_ok {A C} (f : A -> result C) (l : list A) (ys : list C) :
  res_mapM f l = Ok ys -> forall y, In y ys -> exists x, In x l /\ f x = Ok y.
Proof.
  revert ys; induction l as [|x l IH]; intros ys; simpl.
  - intros H; injection H as <-; intros y [].
  - destruct (f x) as [y0|] eqn:Hx; [|discriminate]; simpl.
    destruct (res_mapM f l) as [ys'|] eqn:Hl; [|discriminate]; simpl.
    intros H; injection H as <-. intros y [<-|Hy]; [eauto|].
    destruct (IH ys' eq_refl y Hy) as (x' & ? & ?); eauto.
Qed.

Section Processing.

Variable B : Type.
Variable net : string -> nat -> result B.
Variable unzip : B -> option (list (string * result B)).
Variable parse_fn : B -> result table.

(** The contents the orchestrator can meet under the file name [n]: a
    response fetched directly from a url whose file name is [n], or member
    [n] of a fetched archive. *)
Definition named_content (n : string) (b : B) : Prop :=
  (exists u k, net u k = Ok b /\ url_filename u = n /\
               String.eqb (file_ext n) "zip" = false) \/
  (exists u k bz zfile, net u k = Ok bz /\ unzip bz = Some zfile /\
               zread zfile n = Some (Ok b)).

(** What a step of the loop appended to [dfs]: tables parsed from contents
    named by files it handed to the parse function. *)
Definition parsed_from (names : list string) (dfs0 dfs1 : list table) : Prop :=
  exists new, dfs1 = app dfs0 new /\
    forall df, In df new -> exists n b,
      In n names /\ named_content n b /\ parse_fn b = Ok df.

Definition step_spec (S : gset string) (tr : list event)
    (res : result (gset string * list table)) (dfs : list table) : Prop :=
  NoDup (parsed_names tr) /\
  (forall n, In n (parsed_names tr) -> n ∈ S) /\
  (forall S' dfs', res = Ok (S', dfs') ->
     (forall n, n ∈ S' <-> n ∈ S /\ ~ In n (parsed_names tr)) /\
     parsed_from (parsed_names tr) dfs dfs').

Lemma fetch_ok_content url t b :
  _fetch net url = (t, Ok b) -> exists k, net url k = Ok b.
Proof.
  intros H. destruct (fetch_retry_policy net url) as [(n & _ & _ & _ & Hs & _) _].
  rewrite H in Hs; simpl in Hs; eauto.
Qed.

Lemma process_members_spec url k bz zfile members S dfs tr res :
  net url k = Ok bz -> unzip bz = Some zfile ->
  process_members parse_fn zfile members S dfs = (tr, res) ->
  step_spec S tr res dfs.
Proof.
  intros Hnet Hunz.
  revert S dfs tr res; induction members as [|[f x] rest IH];
    intros S dfs tr res H; cbn [process_members] in H.
  - injection H as <- <-. split; [constructor|]; split; [intros n []|].
    intros S' dfs' Heq; injection Heq as <- <-.
    split; [simpl; intuition|]. exists []; rewrite app_nil_r; split; [done|].
    intros df [].
  - destruct (bool_decide (f ∈ S)) eqn:Hb.
    + apply bool_decide_eq_true in Hb.
      destruct (zread zfile f) as [[b|e]|] eqn:Hz.
      * unfold io_emit in H; rewrite io_bind_ok in H; cbn [fst snd] in H.
        unfold io_lift in H.
        destruct (parse_fn b) as [df|e] eqn:Hp.
        -- rewrite io_bind_ok in H; cbn [fst snd app] in H.
           destruct (process_members parse_fn zfile rest (S ∖ {[f]})
                       (app dfs [df])) as [tr' res'] eqn:Hrec.
           injection H as <- <-.
           destruct (IH _ _ _ _ Hrec) as (Hnd & Hsub & Hres).
           cbn [parsed_names].
           split; [|split].
           ++ constructor; [|exact Hnd].
              intros Hin; apply list_elem_of_In in Hin.
              specialize (Hsub f Hin); set_solver.
           ++ intros n [<-|Hin]; [exact Hb|]. specialize (Hsub n Hin); set_solver.
           ++ intros S' dfs' Hok. destruct (Hres S' dfs' Hok) as (Hmem & new & -> & Hnew).
              split.
              ** intros n; rewrite Hmem; simpl.
                 rewrite elem_of_difference, elem_of_singleton; naive_solver.
              ** exists (df :: new); split; [rewrite <- app_assoc; reflexivity|].
                 intros df' [<-|Hin].
                 --- exists f, b; split; [left; done|]; split; [|exact Hp].
                     right; exists url, k, bz, zfile; auto.
                 --- destruct (Hnew df' Hin) as (n & b' & ? & ? & ?).
                     exists n, b'; split; [right; done|]; auto.
        -- rewrite io_bind_err in H. injection H as <- <-.
           cbn [parsed_names]. split; [apply NoDup_singleton|].
           split; [intros n [<-|[]]; exact Hb|]. discriminate.
      * injection H as <- <-. split; [constructor|]; split; [intros n []|].
        discriminate.
      * injection H as <- <-. split; [constructor|]; split; [intros n []|].
        discriminate.
    + destruct (IH _ _ _ _ H) as (Hnd & Hsub & Hres).
      split; [exact Hnd|]; split; [exact Hsub|]. exact Hres.
Qed.

Lemma step_spec_err S tr e dfs :
  parsed_names tr = [] -> step_spec S tr (Err e) dfs.
Proof.
  intros H; unfold step_spec; rewrite H.
  split; [constructor|]; split; [intros n []|]; discriminate.
Qed.

Lemma step_spec_prefix S t0 tr res dfs :
  parsed_names t0 = [] -> step_spec S tr res dfs ->
  step_spec S (app t0 tr) res dfs.
Proof. intros H0; unfold step_spec; rewrite parsed_names_app, H0; exact id. Qed.

Lemma parsed_from_weaken names names' dfs0 dfs1 :
  (forall n, In n names -> In n names') ->
  parsed_from names dfs0 dfs1 -> parsed_from names' dfs0 dfs1.
Proof.
  intros Hincl (new & -> & Hnew); exists new; split; [done|].
  intros df Hin; destruct (Hnew df Hin) as (n & b & Hn & Hc & Hp).
  exists n, b; auto.
Qed.

Lemma parsed_from_trans names dfs0 dfs1 dfs2 :
  parsed_from names dfs0 dfs1 -> parsed_from names dfs1 dfs2 ->
  parsed_from names dfs0 dfs2.
Proof.
  intros (new1 & -> & H1) (new2 & -> & H2).
  exists (app new1 new2); split; [rewrite app_assoc; done|].
  intros df Hin; apply in_app_or in Hin as [Hin|Hin]; auto.
Qed.

Lemma step_spec_seq S tr1 S1 dfs1 dfs tr2 res2 :
  step_spec S tr1 (Ok (S1, dfs1)) dfs -> step_spec S1 tr2 res2 dfs1 ->
  step_spec S (app tr1 tr2) res2 dfs.
Proof.
  intros (Hnd1 & Hsub1 & Hres1) (Hnd2 & Hsub2 & Hres2).
  destruct (Hres1 S1 dfs1 eq_refl) as [Hmem1 Hfrom1].
  unfold step_spec; rewrite parsed_names_app.
  split; [|split].
  - apply NoDup_app; split; [exact Hnd1|]; split; [|exact Hnd2].
    intros x Hx1 Hx2; apply list_elem_of_In in Hx1, Hx2.
    apply Hsub2, Hmem1 in Hx2; tauto.
  - intros n Hin; apply in_app_or in Hin as [Hin|Hin]; auto.
    apply Hsub2, Hmem1 in Hin; tauto.
  - intros S' dfs' Hok; destruct (Hres2 S' dfs' Hok) as [Hmem2 Hfrom2].
    split.
    + intros n; rewrite Hmem2, Hmem1, in_app_iff; tauto.
    + apply parsed_from_trans with dfs1.
      * eapply parsed_from_weaken; [|exact Hfrom1].
        intros n Hn; apply in_or_app; auto.
      * eapply parsed_from_weaken; [|exact Hfrom2].
        intros n Hn; apply in_or_app; auto.
Qed.

Lemma process_response_spec S dfs url :
  step_spec S (fst (process_response net unzip parse_fn S dfs url))
    (snd (process_response net unzip parse_fn S dfs url)) dfs.
Proof.
  unfold process_response; rewrite io_bind_fst, io_bind_snd.
  assert (Hnp : parsed_names (fst (_fetch net url)) = [])
    by apply fetch_attempt_no_parse.
  destruct (_fetch net url) as [t0 [b|e]] eqn:Hf; cbn [fst snd] in *.
  - apply step_spec_prefix; [exact Hnp|].
    destruct (fetch_ok_content url t0 b Hf) as [k Hk].
    destruct (String.eqb (file_ext (url_filename url)) "zip") eqn:He.
    + destruct (unzip b) as [zfile|] eqn:Hu; [|apply step_spec_err; done].
      destruct (process_members parse_fn zfile zfile S dfs) as [tr res] eqn:Hpm.
      cbn [fst snd]; exact (process_members_spec url k b zfile zfile
                              S dfs tr res Hk Hu Hpm).
    + destruct (bool_decide (url_filename url ∈ S)) eqn:Hb;
        [|apply step_spec_err; done].
      apply bool_decide_eq_true in Hb.
      destruct (parse_fn b) as [df|e] eqn:Hp; cbn.
      * split; [apply NoDup_singleton|].
        split; [intros n [<-|[]]; exact Hb|].
        intros S' dfs' Hok; injection Hok as <- <-. split.
        -- intros n; rewrite elem_of_difference, elem_of_singleton; simpl.
           naive_solver.
        -- exists [df]; split; [done|]. intros df' [<-|[]].
           exists (url_filename url), b; split; [left; done|].
           split; [|exact Hp]. left; exists url, k; auto.
      * split; [apply NoDup_singleton|].
        split; [intros n [<-|[]]; exact Hb|]. discriminate.
  - rewrite app_nil_r; apply step_spec_err; exact Hnp.
Qed.

Lemma process_responses_spec urls S dfs :
  step_spec S (fst (process_responses net unzip parse_fn urls S dfs))
    (snd (process_responses net unzip parse_fn urls S dfs)) dfs.
Proof.
  revert S dfs; induction urls as [|url urls IH]; intros S dfs; simpl.
  - split; [constructor|]; split; [intros n []|].
    intros S' dfs' Heq; injection Heq as <- <-.
    split; [simpl; tauto|]. exists []; rewrite app_nil_r; split; [done|].
    intros df [].
  - rewrite io_bind_fst, io_bind_snd.
    pose proof (process_response_spec S dfs url) as Hstep.
    destruct (process_response net unzip parse_fn S dfs url)
      as [tr1 [[S1 dfs1]|e]]; cbn [fst snd] in *.
    + exact (step_spec_seq _ _ _ _ _ _ _ Hstep (IH S1 dfs1)).
    + rewrite app_nil_r.
      destruct Hstep as (Hnd & Hsub & _).
      split; [exact Hnd|]; split; [exact Hsub|]; discriminate.
Qed.

End Processing.

(** The file names the orchestrator expects: the unarchived names of the
    requested dates that resolve to some url. *)
Definition expected_name {B} (net : string -> nat -> result B)
    (dates : list date) (report : market_report) (n : string) : Prop :=
  exists d u, In d dates /\ snd (market_report_url net d report) = Ok (Some u) /\
    market_report_filename d report false = Ok n.

Lemma retrieve_spec {B} (net : string -> nat -> result B) unzip finish_time
    dates report parse_fn :
  let m := retrieve_and_parse_market_report_files net unzip finish_time
             dates report parse_fn in
  NoDup (parsed_names (fst m)) /\
  (forall n, In n (parsed_names (fst m)) -> expected_name net dates report n) /\
  (forall tbl, snd m = Ok tbl ->
     exists dfs, tbl = sort_by_all_columns (concat dfs) /\
       forall df, In df dfs -> exists n b,
         expected_name net dates report n /\
         named_content B net unzip n b /\ parse_fn b = Ok df).
Proof.
  cbv zeta. unfold retrieve_and_parse_market_report_files.
  pose proof (get_all_market_report_urls_sound net dates report) as Hsound.
  pose proof (get_all_market_report_urls_no_parse net dates report) as Hnp0.
  destruct (get_all_market_report_urls net dates report) as [t0 [dict|e]];
    cbn [fst snd] in Hsound, Hnp0;
    [rewrite io_bind_ok|rewrite io_bind_err; cbn [fst snd]; rewrite Hnp0;
     split; [constructor|]; split; [intros n []|discriminate]].
  specialize (Hsound dict eq_refl). cbn [fst snd].
  rewrite parsed_names_app, Hnp0; cbn [app]. unfold io_lift.
  destruct (res_mapM _ dict) as [names|e] eqn:Hnames;
    [rewrite io_bind_ok|rewrite io_bind_err; cbn [fst snd parsed_names];
     split; [constructor|]; split; [intros n []|discriminate]].
  cbn [fst snd app].
  assert (Hexp : forall n, n ∈ (list_to_set names : gset string) ->
                           expected_name net dates report n).
  { intros n Hn. apply elem_of_list_to_set, list_elem_of_In in Hn.
    destruct (res_mapM_ok _ _ _ Hnames n Hn) as ([d u] & Hin & Hfn).
    destruct (Hsound d u Hin) as [Hd Hu]. exists d, u; auto. }
  match goal with
  | |- context [process_responses net unzip parse_fn ?us ?S0 []] =>
      pose proof (process_responses_spec B net unzip parse_fn us S0 [])
        as (Hnd & Hsub & Hres);
      destruct (process_responses net unzip parse_fn us S0 []) as [t1 [[S dfs]|e]]
  end; cbn [fst snd] in Hnd, Hsub, Hres;
    [rewrite io_bind_ok|rewrite io_bind_err; cbn [fst snd];
     split; [exact Hnd|]; split;
     [intros n Hn; apply Hexp, Hsub, Hn|discriminate]].
  destruct (Hres S dfs eq_refl) as [_ (new & Hnew & Hfrom)].
  simpl in Hnew; subst new. cbn [fst snd].
  destruct (bool_decide (S = ∅)); unfold io_ret, io_emit; rewrite io_bind_ok;
    cbn [fst snd io_lift parsed_names];
    rewrite !parsed_names_app; cbn [parsed_names]; rewrite !app_nil_r.
  all: split; [exact Hnd|]; split; [intros n Hn; apply Hexp, Hsub, Hn|].
  all: intros tbl Htbl; unfold concat_and_sort in Htbl.
  all: exists dfs; split;
    [destruct dfs; [discriminate|injection Htbl as <-; done]|].
  all: intros df Hdf; destruct (Hfrom df Hdf) as (n & b & Hn & Hc & Hp).
  all: exists n, b; split; [apply Hexp, Hsub, Hn|]; auto.
Qed.

(** ** C1: only expected files are parsed, each at most once *)

(** Claim C1: in every run of the batch orchestrator, whatever the
    responses and their completion order, every file handed to the parse
    function (a directly fetched file or an archive member) is named by the
    unarchived-form file name of a requested date that resolved to some url
    (the archived url included), no name is parsed twice, and so no archive
    member named for a date outside the request is ever parsed. *)
Theorem retrieve_parses_only_expected {B} (net : string -> nat -> result B)
    unzip finish_time (dates : list date) (report : market_report)
    (parse_fn : B -> result table) :
  let tr := fst (retrieve_and_parse_market_report_files net unzip finish_time
                   dates report parse_fn) in
  NoDup (parsed_names tr) /\
  (forall n, In n (parsed_names tr) ->
     exists d u, In d dates /\
       snd (market_report_url net d report) = Ok (Some u) /\
       market_report_filename d report false = Ok n) /\
  (forall d' n', market_report_filename d' report false = Ok n' ->
     (forall d, In d dates -> market_report_filename d report false <> Ok n') ->
     ~ In n' (parsed_names tr)).
Proof.
  intros tr.
  destruct (retrieve_spec net unzip finish_time dates report parse_fn)
    as (Hnd & Hexp & _).
  split; [exact Hnd|]. split; [exact Hexp|].
  intros d' n' _ Hout Hin.
  destruct (Hexp n' Hin) as (d & u & Hd & _ & Hfn).
  exact (Hout d Hd Hfn).
Qed.

(** ** Order of the concatenated table *)

Lemma vals_compare_antisym (l1 l2 : list Z) :
  vals_compare l2 l1 = CompOpp (vals_compare l1 l2).
Proof.
  revert l2; induction l1 as [|x l1 IH]; intros [|y l2]; simpl; auto.
  rewrite (Z.compare_antisym x y).
  destruct (Z.compare x y); simpl; auto.
Qed.

Lemma node_compare_antisym (a b : option string) :
  node_compare b a = CompOpp (node_compare a b).
Proof.
  destruct a as [x|], b as [y|]; simpl; auto. apply String.compare_antisym.
Qed.

Lemma row_compare_antisym (r1 r2 : row) :
  row_compare r2 r1 = CompOpp (row_compare r1 r2).
Proof.
  unfold row_compare.
  rewrite (Z.compare_antisym (start r1) (start r2)),
    (Z.compare_antisym (end_ r1) (end_ r2)), node_compare_antisym,
    vals_compare_antisym.
  destruct (start r1 ?= start r2)%Z; simpl; auto.
  destruct (end_ r1 ?= end_ r2)%Z; simpl; auto.
  destruct (node_compare (node r1) (node r2)); simpl; auto.
Qed.

#[global] Instance row_le_total : Total row_le.
Proof.
  intros r1 r2; unfold row_le; rewrite (row_compare_antisym r1 r2).
  destruct (row_compare r1 r2); simpl; [left|left|right]; discriminate.
Qed.








(** ** C3: order and span of historical results *)





(** Fixtures for history requests: responses are tables, parsed as they
    are; no response is an archive. *)
Definition hist_day : date := mkDate 1 1 1.

Definition ex_unzip (_ : table) : option (list (string * result table)) := None.

Definition ex_parse (b : table) : result table := Ok b.









(** ** C4: missing dates in a history request *)

Definition ex_day : date := mkDate 2024 1 1.

(** A server on which no report file exists: every probe answers 404. *)
Definition absent_net (_ : string) (_ : nat) : result table :=
  Err (ClientResponseError 404).

(** Claim C4 (failing input): the load history for 2024-01-01, whose two
    candidate files are both absent, probes both urls, warns that the date
    is missing, and then raises [ValueError] from [pd.concat([])] instead of
    returning the (empty) table of what was retrieved. *)
Theorem load_history_all_missing_raises :
  run_operation table absent_net ex_unzip (fun _ => 0) ex_parse ex_parse
    ex_parse ex_parse ex_parse ex_parse ex_parse ex_parse ex_day 0%Z
    OpLoad (DList [ex_day]) =
  ([EvFetch (BASE_URL ++ "/20240102_df_al.xls");
    EvFetch (BASE_URL ++ "/202401_df_al_xls.zip");
    EvWarnDates [ex_day]],
   Err (PyExc "ValueError" "No objects to concatenate")).
Proof. vm_compute. reflexivity. Qed.

(** ** C8: validation of the live-API reference id *)

Lemma refid_rejected (strptime_refid : LiveApi.ustring -> result LiveApi.datetime)
    (refid : LiveApi.ustring) :
  LiveApi.py_split refid <> [] ->
  last (LiveApi.py_split refid) <> Some (LiveApi.ustr "EST") \/
  LiveApi.py_slice 1 3 (LiveApi.py_split refid) <>
    [LiveApi.ustr "-"; LiveApi.ustr "Interval"] ->
  LiveApi.parse_api_refid_datetime strptime_refid refid =
  Err (PyExc "ValueError" "Invalid refid string.").
Proof.
  intros Hne Hbad. unfold LiveApi.parse_api_refid_datetime.
  destruct (last (LiveApi.py_split refid)) as [tok|] eqn:Hlast;
    [|apply last_None in Hlast; contradiction].
  destruct (bool_decide (tok = LiveApi.ustr "EST")) eqn:Htok; [|reflexivity].
  apply bool_decide_eq_true in Htok; subst tok.
  destruct (bool_decide (LiveApi.py_slice 1 3 _ = _)) eqn:Hsl; [|reflexivity].
  apply bool_decide_eq_true in Hsl. exfalso; tauto.
Qed.

Lemma refid_blank (strptime_refid : LiveApi.ustring -> result LiveApi.datetime)
    (refid : LiveApi.ustring) :
  LiveApi.py_split refid = [] ->
  LiveApi.parse_api_refid_datetime strptime_refid refid =
  Err (PyExc "IndexError" "list index out of range").
Proof.
  intros H. unfold LiveApi.parse_api_refid_datetime. rewrite H. reflexivity.
Qed.

(** A reference id with a trailing [CST] in place of [EST]. *)
Definition cst_refid : LiveApi.ustring :=
  LiveApi.ustr "01-Jan-2024 - Interval 10:05 CST".

(** Claim C8 (counterexample): the rejection of a malformed reference id is
    Python's built-in [ValueError], not a [MalformedReferenceId] error. *)
Lemma refid_error_is_ValueError :
  LiveApi.parse_api_refid_datetime (fun _ => Err DatesTypeError) cst_refid =
  Err (PyExc "ValueError" "Invalid refid string.") /\
  forall msg, LiveApi.parse_api_refid_datetime (fun _ => Err DatesTypeError)
    cst_refid <> Err (PyExc "MalformedReferenceId" msg).
Proof.
  assert (H : LiveApi.parse_api_refid_datetime (fun _ => Err DatesTypeError)
    cst_refid = Err (PyExc "ValueError" "Invalid refid string."))
    by (vm_compute; reflexivity).
  split; [exact H|]. intros msg; rewrite H; discriminate.
Qed.

(** Claim C8 (amended): the reference id is split on whitespace as
    [str.split()] does (Unicode whitespace included).  When it has at least
    one token, and its last token is not [EST] or its second and third
    tokens are not [-] and [Interval], parsing raises
    [ValueError("Invalid refid string.")]; when it has no token, parsing
    raises [IndexError].  Each of the three live-payload parsers (load,
    forecast, fuel mix) parses the reference id first, and so returns that
    error and no table. *)
Theorem refid_validation (strptime_refid : LiveApi.ustring -> result LiveApi.datetime)
    (refid : LiveApi.ustring)
    (Hne : LiveApi.py_split refid <> [])
    (Hbad : last (LiveApi.py_split refid) <> Some (LiveApi.ustr "EST") \/
            LiveApi.py_slice 1 3 (LiveApi.py_split refid) <>
              [LiveApi.ustr "-"; LiveApi.ustr "Interval"]) :
  LiveApi.parse_api_refid_datetime strptime_refid refid =
    Err (PyExc "ValueError" "Invalid refid string.") /\
  (forall j, LiveApi.RefId j = refid ->
    LiveApi.parse_load_api_data strptime_refid j =
      Err (PyExc "ValueError" "Invalid refid string.") /\
    LiveApi.parse_forecast_api_data strptime_refid j =
      Err (PyExc "ValueError" "Invalid refid string.")) /\
  (forall Rest fuel_mix_frame (j : @LiveApi.fuel_mix_json Rest),
    LiveApi.FmRefId j = refid ->
    LiveApi.parse_fuel_mix_api_data strptime_refid Rest fuel_mix_frame j =
      Err (PyExc "ValueError" "Invalid refid string.")) /\
  (forall refid', LiveApi.py_split refid' = [] ->
    (forall j, LiveApi.RefId j = refid' ->
      LiveApi.parse_load_api_data strptime_refid j =
        Err (PyExc "IndexError" "list index out of range") /\
      LiveApi.parse_forecast_api_data strptime_refid j =
        Err (PyExc "IndexError" "list index out of range")) /\
    (forall Rest fuel_mix_frame (j : @LiveApi.fuel_mix_json Rest),
      LiveApi.FmRefId j = refid' ->
      LiveApi.parse_fuel_mix_api_data strptime_refid Rest fuel_mix_frame j =
        Err (PyExc "IndexError" "list index out of range"))).
Proof.
  pose proof (refid_rejected strptime_refid refid Hne Hbad) as H.
  split; [exact H|]. split; [|split].
  - intros j Hj.
    unfold LiveApi.parse_load_api_data, LiveApi.parse_forecast_api_data.
    rewrite Hj, H. split; reflexivity.
  - intros Rest f j Hj. unfold LiveApi.parse_fuel_mix_api_data.
    rewrite Hj, H. reflexivity.
  - intros refid' Hnil. pose proof (refid_blank strptime_refid refid' Hnil) as H'.
    split.
    + intros j Hj.
      unfold LiveApi.parse_load_api_data, LiveApi.parse_forecast_api_data.
      rewrite Hj, H'. split; reflexivity.
    + intros Rest f j Hj. unfold LiveApi.parse_fuel_mix_api_data.
      rewrite Hj, H'. reflexivity.
Qed.

Lemma refid_validation_witness :
  LiveApi.parse_api_refid_datetime (fun _ => Err DatesTypeError) cst_refid =
    Err (PyExc "ValueError" "Invalid refid string.") /\
  LiveApi.parse_load_api_data (fun _ => Err DatesTypeError)
    (LiveApi.mkLoadJson cst_refid [(10, 5, 100%Z)] [(11, 120%Z)]) =
    Err (PyExc "ValueError" "Invalid refid string.").
Proof.
  destruct (refid_validation (fun _ => Err DatesTypeError) cst_refid)
    as [H1 [H2 _]].
  - vm_compute. discriminate.
  - left. vm_compute. intros H; discriminate H.
  - split; [exact H1|].
    exact (proj1 (H2 (LiveApi.mkLoadJson cst_refid [(10, 5, 100%Z)]
                        [(11, 120%Z)]) eq_refl)).
Defined.

(** ** C9: release of the session *)

Lemma session_after_events (tr : list event) (o : bool) :
  fold_left Lifecycle.session_after_event tr o = o.
Proof.
  revert o; induction tr as [|[] tr IH]; intros o; simpl; auto.
Qed.

Lemma run_client_calls {B} (net : string -> nat -> result B) unzip finish_time
    p1 p2 p3 p4 p5 p6 p7 p8 today current_hour
    (calls : list Lifecycle.call) (s : Lifecycle.state) :
  Lifecycle.run B net unzip finish_time p1 p2 p3 p4 p5 p6 p7 p8 today
    current_hour (map Lifecycle.ClientCall calls) s = s.
Proof.
  revert s; induction calls as [|c calls IH]; intros [o hs]; simpl; [reflexivity|].
  unfold Lifecycle.run in IH. rewrite session_after_events. apply IH.
Qed.

Lemma exit_hooks_close {B} (net : string -> nat -> result B) unzip finish_time
    p1 p2 p3 p4 p5 p6 p7 p8 today current_hour (s : Lifecycle.state) :
  Lifecycle.atexit_hooks s <> [] ->
  Lifecycle.session_open
    (Lifecycle.step B net unzip finish_time p1 p2 p3 p4 p5 p6 p7 p8 today
       current_hour Lifecycle.InterpreterExit s) = false.
Proof.
  destruct s as [o hs]; simpl. destruct hs as [|[] hs]; [congruence|].
  reflexivity.
Qed.

(** A server that answers every request with an empty table, and the
    identity as every parser. *)
Definition lc_net (_ : string) (_ : nat) : result table := Ok [].

Definition lc_parse (b : table) : result table := Ok b.

Definition lc_run : list Lifecycle.action -> Lifecycle.state -> Lifecycle.state :=
  Lifecycle.run table lc_net (fun _ => None) (fun _ => 0)
    lc_parse lc_parse lc_parse lc_parse lc_parse lc_parse lc_parse lc_parse
    hist_day 0%Z.

Definition lc_call (op : operation) (ds : dates_spec) : io table :=
  run_operation table (Lifecycle.session_net lc_net true) (fun _ => None)
    (fun _ => 0) lc_parse lc_parse lc_parse lc_parse lc_parse lc_parse
    lc_parse lc_parse hist_day 0%Z op ds.

(** Claim C9 (counterexample): a fresh client that served one call which
    returns a table ([get_load_data("latest")]) and one which raises
    ([get_fuel_mix_data("today")]) still holds its session open; its only
    release is the hook registered with [atexit]. *)
Lemma session_open_after_calls :
  snd (lc_call OpLoad DLatest) = Ok [] /\
  snd (lc_call OpFuelMix DToday) = Err fuel_mix_today_error /\
  Lifecycle.session_open
    (lc_run [Lifecycle.ClientCall (Lifecycle.Operation OpLoad DLatest);
             Lifecycle.ClientCall (Lifecycle.Operation OpFuelMix DToday)]
       (Lifecycle.init Lifecycle.fresh)) = true /\
  Lifecycle.atexit_hooks
    (lc_run [Lifecycle.ClientCall (Lifecycle.Operation OpLoad DLatest);
             Lifecycle.ClientCall (Lifecycle.Operation OpFuelMix DToday)]
       (Lifecycle.init Lifecycle.fresh)) = [Lifecycle.RunSessionClose].
Proof. vm_compute. repeat split. Qed.

(** Claim C9 (amended): no client call releases the session, on a normal
    return or an error alike (each call's effect on the session is that of
    the events of its trace); construction registers its release as an
    [atexit] hook, which closes it when the interpreter exits; the caller
    may release it earlier by closing the public [session] attribute, after
    which a request raises [RuntimeError("Session is closed")]. *)
Theorem session_lifecycle {B} (net : string -> nat -> result B) unzip
    finish_time p1 p2 p3 p4 p5 p6 p7 p8 today current_hour
    (calls : list Lifecycle.call) (s : Lifecycle.state) :
  let step := Lifecycle.step B net unzip finish_time p1 p2 p3 p4 p5 p6 p7 p8
                today current_hour in
  let s1 := Lifecycle.run B net unzip finish_time p1 p2 p3 p4 p5 p6 p7 p8
              today current_hour (map Lifecycle.ClientCall calls)
              (Lifecycle.init s) in
  Lifecycle.session_open s1 = true /\
  In Lifecycle.RunSessionClose (Lifecycle.atexit_hooks s1) /\
  Lifecycle.session_open (step Lifecycle.InterpreterExit s1) = false /\
  Lifecycle.session_open (step Lifecycle.CallerClosesSession s1) = false /\
  forall url, _fetch (Lifecycle.session_net net
      (Lifecycle.session_open (step Lifecycle.CallerClosesSession s1))) url =
    ([EvFetch url], Err (PyExc "RuntimeError" "Session is closed")).
Proof.
  cbv zeta. rewrite run_client_calls.
  assert (Hin : In Lifecycle.RunSessionClose
                  (Lifecycle.atexit_hooks (Lifecycle.init s)))
    by (simpl; apply in_or_app; right; left; reflexivity).
  split; [reflexivity|]. split; [exact Hin|]. split; [|split; [reflexivity|]].
  - apply exit_hooks_close. intros Hnil; rewrite Hnil in Hin; exact Hin.
  - intros url. reflexivity.
Qed.

(** * Further properties of the client *)

(** ** File names and urls *)

(** Whether character [c] occurs in [s]. *)
Fixpoint has_char (c : ascii) (s : string) : bool :=
  match s with
  | EmptyString => false
  | String x s' => Ascii.eqb x c || has_char c s'
  end.

Lemma string_app_cons (x : ascii) (s t : string) :
  String x s ++ t = String x (s ++ t).
Proof. reflexivity. Qed.

Lemma string_app_nil_l (s : string) : EmptyString ++ s = s.
Proof. reflexivity. Qed.

Lemma has_char_app (c : ascii) (s1 s2 : string) :
  has_char c (s1 ++ s2) = has_char c s1 || has_char c s2.
Proof.
  induction s1 as [|x s1 IH]; [reflexivity|].
  rewrite string_app_cons; simpl has_char. rewrite IH, orb_assoc; reflexivity.
Qed.

Lemma string_app_assoc (s1 s2 s3 : string) :
  (s1 ++ s2) ++ s3 = s1 ++ (s2 ++ s3).
Proof.
  induction s1 as [|x s1 IH]; [reflexivity|].
  rewrite !string_app_cons, IH; reflexivity.
Qed.

Lemma string_app_nil_r (s : string) : s ++ EmptyString = s.
Proof.
  induction s as [|x s IH]; [reflexivity|]. rewrite string_app_cons, IH.
  reflexivity.
Qed.

Lemma after_last_aux_app (c : ascii) (s1 s2 acc : string) :
  after_last_aux c (s1 ++ s2) acc = after_last_aux c s2 (after_last_aux c s1 acc).
Proof.
  revert acc; induction s1 as [|x s1 IH]; intros acc; [reflexivity|].
  rewrite string_app_cons; simpl after_last_aux.
  destruct (Ascii.eqb x c); apply IH.
Qed.

Lemma after_last_aux_no_char (c : ascii) (s acc : string) :
  has_char c s = false -> after_last_aux c s acc = acc ++ s.
Proof.
  revert acc; induction s as [|x s IH]; intros acc; simpl.
  - intros _; rewrite string_app_nil_r; reflexivity.
  - intros H; apply orb_false_iff in H as [Hx Hs]. rewrite Hx, IH by exact Hs.
    rewrite string_app_assoc; reflexivity.
Qed.

(** The text after the last [c] of [p ++ c ++ t], when [t] has no [c]. *)
Lemma after_last_sep (c : ascii) (p t : string) :
  has_char c t = false -> after_last c (p ++ String c t) = t.
Proof.
  intros Ht. unfold after_last. rewrite after_last_aux_app. simpl after_last_aux.
  rewrite Ascii.eqb_refl. apply after_last_aux_no_char, Ht.
Qed.

Lemma has_char_In (c : ascii) (s : string) :
  has_char c s = false <-> ~ In c (list_ascii_of_string s).
Proof.
  induction s as [|x s IH]; simpl; [tauto|].
  rewrite orb_false_iff, IH. split.
  - intros [Hx Hs] [->|Hin]; [rewrite Ascii.eqb_refl in Hx; discriminate|tauto].
  - intros H; split; [|tauto]. apply Ascii.eqb_neq. intros ->; tauto.
Qed.

Lemma lstrip_slash_no_slash (l : list ascii) :
  ~ In "/"%char l -> lstrip_slash l = l.
Proof.
  destruct l as [|x l]; simpl; [reflexivity|]. intros H.
  destruct (Ascii.eqb x "/") eqn:Hx; [apply Ascii.eqb_eq in Hx; tauto|reflexivity].
Qed.

Lemma strip_slash_no_slash (s : string) :
  has_char "/" s = false -> strip_slash s = s.
Proof.
  intros H; apply has_char_In in H. unfold strip_slash.
  rewrite (lstrip_slash_no_slash _ H), lstrip_slash_no_slash, rev_involutive
    by (rewrite <- in_rev; exact H).
  apply string_of_list_ascii_of_string.
Qed.

Lemma urljoin_base (n : string) :
  has_char "/" n = false -> urljoin [BASE_URL; n] = BASE_URL ++ "/" ++ n.
Proof.
  intros H. unfold urljoin. simpl map. rewrite (strip_slash_no_slash n H).
  reflexivity.
Qed.

Lemma digit_not_slash (k : nat) : k < 10 -> Ascii.eqb (digit k) "/" = false.
Proof. intros Hk. do 10 (destruct k as [|k]; [reflexivity|]). lia. Qed.

Lemma digits_aux_no_slash (f n : nat) (acc : string) :
  has_char "/" (digits_aux f n acc) = has_char "/" acc.
Proof.
  revert n acc; induction f as [|f IH]; intros n acc; [reflexivity|].
  cbn [digits_aux]. assert (Hd : Ascii.eqb (digit (n mod 10)) "/" = false)
    by (apply digit_not_slash, Nat.mod_upper_bound; lia).
  destruct (Nat.ltb n 10); [|rewrite IH]; cbn [has_char]; rewrite Hd;
    reflexivity.
Qed.

Lemma concat_no_char (c : ascii) (sep : string) (l : list string) :
  has_char c sep = false -> List.Forall (fun s => has_char c s = false) l ->
  has_char c (String.concat sep l) = false.
Proof.
  intros Hsep Hl; induction Hl as [|x l Hx Hl IH]; [reflexivity|].
  destruct l as [|y l]; [exact Hx|].
  change (String.concat sep (x :: y :: l)) with
    (x ++ sep ++ String.concat sep (y :: l)).
  rewrite !has_char_app, Hx, Hsep, IH; reflexivity.
Qed.

Lemma zpad_no_slash (w n : nat) : has_char "/" (zpad w n) = false.
Proof.
  unfold zpad, digits. rewrite has_char_app, digits_aux_no_slash.
  rewrite concat_no_char; [reflexivity..|].
  apply List.Forall_forall; intros s Hs. apply repeat_spec in Hs; subst s.
  reflexivity.
Qed.

Lemma strftime_no_slash (d : date) :
  has_char "/" (strftime_Ymd d) = false /\ has_char "/" (strftime_Ym d) = false.
Proof.
  unfold strftime_Ymd, strftime_Ym. rewrite !has_char_app, !zpad_no_slash.
  split; reflexivity.
Qed.

(** [filename.rsplit(".", maxsplit=1)[-1]] of a report file name. *)
Lemma file_ext_name (x suffix ext : string) :
  has_char "." ext = false -> file_ext (x ++ "_" ++ suffix ++ "." ++ ext) = ext.
Proof.
  intros He. change ("." ++ ext) with (String "." ext).
  rewrite <- (string_app_assoc "_" suffix), <- string_app_assoc.
  apply after_last_sep, He.
Qed.

Lemma market_report_filename_shape (d : date) (r : market_report)
    (a : bool) (n : string) :
  market_report_filename d r a = Ok n ->
  has_char "/" n = false /\
  file_ext n = (if a then "zip" else snd (MARKET_REPORT_FILES_SUFFIX_EXT r)) /\
  (a = false -> file_ext n <> "zip").
Proof.
  unfold market_report_filename.
  destruct (if uses_publish_date r then add_one_day d else Ok d) as [d'|e];
    [|discriminate]; cbn [res_bind].
  destruct (strftime_no_slash d') as [H1 H2].
  destruct r, a; cbn [MARKET_REPORT_FILES_SUFFIX_EXT snd]; intros Hn;
    injection Hn as <-; rewrite file_ext_name by reflexivity;
    rewrite !has_char_app, ?H1, ?H2; (split; [reflexivity|]);
    split; first [reflexivity | intros; discriminate].
Qed.

Lemma market_report_url_Some {B} (net : string -> nat -> result B) d r u :
  snd (market_report_url net d r) = Ok (Some u) ->
  exists a n, market_report_filename d r a = Ok n /\ u = urljoin [BASE_URL; n].
Proof.
  unfold market_report_url, io_lift. rewrite io_bind_snd; cbn [snd].
  destruct (market_report_filename d r false) as [n1|] eqn:H1; [|discriminate].
  rewrite io_bind_snd.
  destruct (snd (check_url_exists net _)) as [[|]|]; [|rewrite io_bind_snd|discriminate].
  - intros H; injection H as <-. exists false, n1; auto.
  - cbn [snd]. destruct (market_report_filename d r true) as [n2|] eqn:H2;
      [|discriminate].
    rewrite io_bind_snd.
    destruct (snd (check_url_exists net _)) as [[|]|]; try discriminate.
    intros H; injection H as <-. exists true, n2; auto.
Qed.

(** Extra: the url [market_report_url] resolves is [BASE_URL/name] for one
    of the two candidate names; the batch loop recovers that name from the
    url ([rsplit("/")]) and takes the archive branch exactly when the
    candidate is the archived one. *)
Theorem market_report_url_name_roundtrip {B} (net : string -> nat -> result B)
    (d : date) (r : market_report) (u : string)
    (Hu : snd (market_report_url net d r) = Ok (Some u)) :
  exists a n, market_report_filename d r a = Ok n /\
    u = BASE_URL ++ "/" ++ n /\ url_filename u = n /\
    (String.eqb (file_ext (url_filename u)) "zip" = a).
Proof.
  destruct (market_report_url_Some net d r u Hu) as (a & n & Hn & ->).
  destruct (market_report_filename_shape d r a n Hn) as (Hs & He & Hnz).
  rewrite urljoin_base by exact Hs.
  exists a, n. split; [exact Hn|]. split; [reflexivity|].
  assert (Hf : url_filename (BASE_URL ++ "/" ++ n) = n).
  { unfold url_filename. change ("/" ++ n) with (String "/" n).
    apply after_last_sep, Hs. }
  split; [exact Hf|]. rewrite Hf.
  destruct a; [rewrite He; reflexivity|].
  apply String.eqb_neq, Hnz; reflexivity.
Qed.

Lemma market_report_url_name_roundtrip_witness :
  snd (market_report_url (fun _ _ => Ok tt) (mkDate 2024 1 4)
         DAYAHEAD_EXPOST_LMP) =
    Ok (Some (BASE_URL ++ "/20240104_da_expost_lmp.csv")) /\
  exists a n, market_report_filename (mkDate 2024 1 4) DAYAHEAD_EXPOST_LMP a
      = Ok n /\
    BASE_URL ++ "/20240104_da_expost_lmp.csv" = BASE_URL ++ "/" ++ n /\
    url_filename (BASE_URL ++ "/20240104_da_expost_lmp.csv") = n /\
    String.eqb (file_ext (url_filename
      (BASE_URL ++ "/20240104_da_expost_lmp.csv"))) "zip" = a.
Proof.
  assert (H : snd (market_report_url (fun _ _ => Ok tt) (mkDate 2024 1 4)
         DAYAHEAD_EXPOST_LMP) =
    Ok (Some (BASE_URL ++ "/20240104_da_expost_lmp.csv")))
    by (vm_compute; reflexivity).
  split; [exact H|].
  exact (market_report_url_name_roundtrip _ _ _ _ H).
Defined.

(** Extra: every candidate file name is free of [/], and its extension is
    [zip] for the archived candidate and the report's own extension, never
    [zip], for the unarchived one. *)
Theorem report_filename_extension (d : date) (r : market_report) (a : bool)
    (n : string) (Hn : market_report_filename d r a = Ok n) :
  has_char "/" n = false /\
  file_ext n = (if a then "zip" else snd (MARKET_REPORT_FILES_SUFFIX_EXT r)) /\
  (a = false -> file_ext n <> "zip").
Proof. exact (market_report_filename_shape d r a n Hn). Qed.

Lemma report_filename_extension_witness :
  market_report_filename (mkDate 2023 12 31) FORECAST_AND_LOAD true =
    Ok "202401_df_al_xls.zip" /\
  has_char "/" "202401_df_al_xls.zip" = false /\
  file_ext "202401_df_al_xls.zip" = "zip" /\
  (true = false -> file_ext "202401_df_al_xls.zip" <> "zip").
Proof.
  assert (H : market_report_filename (mkDate 2023 12 31) FORECAST_AND_LOAD true
    = Ok "202401_df_al_xls.zip") by (vm_compute; reflexivity).
  split; [exact H|]. exact (report_filename_extension _ _ _ _ H).
Defined.

(** ** Decimal date stamps *)

(** Value of a string of decimal digits. *)
Definition digit_val (c : ascii) : nat := nat_of_ascii c - 48.

Definition dec_step (acc : nat) (c : ascii) : nat := acc * 10 + digit_val c.

Definition dec (s : string) : nat := fold_left dec_step (list_ascii_of_string s) 0.

Lemma list_ascii_of_string_app (s t : string) :
  list_ascii_of_string (s ++ t) =
  app (list_ascii_of_string s) (list_ascii_of_string t).
Proof.
  induction s as [|x s IH]; [reflexivity|].
  rewrite string_app_cons; simpl; rewrite IH; reflexivity.
Qed.

Lemma length_list_ascii_of_string (s : string) :
  length (list_ascii_of_string s) = String.length s.
Proof. induction s as [|x s IH]; simpl; [|rewrite IH]; reflexivity. Qed.

Lemma string_length_app (s t : string) :
  String.length (s ++ t) = String.length s + String.length t.
Proof.
  rewrite <- !length_list_ascii_of_string, list_ascii_of_string_app.
  apply length_app.
Qed.

Lemma fold_dec_acc (l : list ascii) (a : nat) :
  fold_left dec_step l a = a * 10 ^ length l + fold_left dec_step l 0.
Proof.
  revert a; induction l as [|c l IH]; intros a; simpl; [lia|].
  rewrite (IH (dec_step a c)), (IH (dec_step 0 c)). unfold dec_step.
  nia.
Qed.

Lemma dec_app (s t : string) :
  dec (s ++ t) = dec s * 10 ^ String.length t + dec t.
Proof.
  unfold dec. rewrite list_ascii_of_string_app, fold_left_app, fold_dec_acc,
    length_list_ascii_of_string. reflexivity.
Qed.

Lemma digit_val_digit (k : nat) : k < 10 -> digit_val (digit k) = k.
Proof. intros Hk. do 10 (destruct k as [|k]; [reflexivity|]). lia. Qed.

Lemma dec_single (x : ascii) : dec (String x EmptyString) = digit_val x.
Proof. reflexivity. Qed.

Lemma digits_aux_spec (f n : nat) (acc : string) :
  n < f ->
  exists s, digits_aux f n acc = s ++ acc /\ dec s = n /\
    1 <= String.length s /\
    (forall k, 1 <= k -> n < 10 ^ k -> String.length s <= k).
Proof.
  revert n acc; induction f as [|f IH]; intros n acc Hn; [lia|].
  cbn [digits_aux].
  assert (Hm : n mod 10 < 10) by (apply Nat.mod_upper_bound; lia).
  destruct (Nat.ltb_spec n 10) as [Hlt|Hge].
  - exists (String (digit (n mod 10)) EmptyString). split; [reflexivity|].
    split; [|split; [cbn; lia|intros k Hk _; cbn; lia]].
    rewrite dec_single, digit_val_digit by exact Hm.
    apply Nat.mod_small, Hlt.
  - assert (Hdiv : n / 10 < f).
    { assert (n / 10 < n) by (apply Nat.div_lt; lia). lia. }
    destruct (IH (n / 10) (String (digit (n mod 10)) acc) Hdiv)
      as (s' & Heq & Hdec & Hlen & Hk).
    exists (s' ++ String (digit (n mod 10)) EmptyString). split.
    { rewrite Heq, string_app_assoc; reflexivity. }
    split; [|split].
    + rewrite dec_app, Hdec, dec_single, digit_val_digit by exact Hm.
      cbn [String.length]. rewrite Nat.pow_1_r. pose proof (Nat.div_mod_eq n 10). lia.
    + rewrite string_length_app; lia.
    + intros k Hk1 Hnk. rewrite string_length_app; cbn [String.length].
      destruct k as [|k]; [lia|]. destruct k as [|k]; [cbn in Hnk; lia|].
      assert (n / 10 < 10 ^ S k).
      { apply Nat.div_lt_upper_bound; [lia|]. rewrite <- Nat.pow_succ_r'.
        exact Hnk. }
      specialize (Hk (S k) ltac:(lia) H). lia.
Qed.

Lemma zeros_spec (m : nat) :
  dec (String.concat EmptyString (List.repeat "0" m)) = 0 /\
  String.length (String.concat EmptyString (List.repeat "0" m)) = m.
Proof.
  induction m as [|m [IH1 IH2]]; [split; reflexivity|].
  destruct m as [|m]; [split; reflexivity|].
  change (String.concat EmptyString (List.repeat "0" (S (S m)))) with
    ("0" ++ EmptyString ++ String.concat EmptyString (List.repeat "0" (S m))).
  rewrite string_app_nil_l, dec_app, string_length_app, IH1, IH2.
  split; reflexivity.
Qed.

Lemma zpad_spec (w n : nat) :
  dec (zpad w n) = n /\
  (1 <= w -> n < 10 ^ w -> String.length (zpad w n) = w).
Proof.
  unfold zpad, digits.
  destruct (digits_aux_spec (S n) n EmptyString ltac:(lia))
    as (s & Heq & Hdec & Hlen & Hk).
  rewrite Heq, string_app_nil_r.
  destruct (zeros_spec (w - String.length s)) as [Z1 Z2].
  rewrite dec_app, string_length_app, Z1, Z2, Hdec. split; [lia|].
  intros Hw Hn. specialize (Hk w Hw Hn). lia.
Qed.

Lemma string_app_inj_len (s1 t1 s2 t2 : string) :
  s1 ++ t1 = s2 ++ t2 -> String.length s1 = String.length s2 ->
  s1 = s2 /\ t1 = t2.
Proof.
  revert s2; induction s1 as [|x s1 IH]; intros [|y s2] Heq Hl;
    try discriminate Hl; [split; [reflexivity|exact Heq]|].
  rewrite !string_app_cons in Heq. injection Heq as -> Heq.
  injection Hl as Hl. destruct (IH s2 Heq Hl) as [-> ->]; split; reflexivity.
Qed.

Lemma days_in_month_le_31 (y m : nat) : days_in_month y m <= 31.
Proof.
  unfold days_in_month.
  do 13 (destruct m as [|m]; [try destruct (is_leap y); lia|]). lia.
Qed.

Lemma MAXYEAR_lt : MAXYEAR < 10 ^ 4.
Proof. apply Nat.ltb_lt; vm_compute; reflexivity. Qed.

Lemma strftime_Ym_inj (d1 d2 : date) :
  valid_date d1 -> valid_date d2 ->
  strftime_Ym d1 ++ "_" = strftime_Ym d2 ++ "_" ->
  year d1 = year d2 /\ month d1 = month d2.
Proof.
  unfold valid_date, strftime_Ym; intros (Hy1 & Hm1 & _) (Hy2 & Hm2 & _) Heq.
  pose proof MAXYEAR_lt.
  destruct (zpad_spec 4 (year d1)) as [Dy1 Ly1],
    (zpad_spec 4 (year d2)) as [Dy2 Ly2],
    (zpad_spec 2 (month d1)) as [Dm1 Lm1],
    (zpad_spec 2 (month d2)) as [Dm2 Lm2].
  rewrite !string_app_assoc in Heq.
  apply string_app_inj_len in Heq as [Ey Heq]; [|rewrite Ly1, Ly2; lia].
  apply string_app_inj_len in Heq as [Em _];
    [|rewrite Lm1, Lm2; cbn; lia].
  split; [rewrite <- Dy1, <- Dy2, Ey|rewrite <- Dm1, <- Dm2, Em]; reflexivity.
Qed.

Lemma strftime_Ymd_inj (d1 d2 : date) :
  valid_date d1 -> valid_date d2 ->
  strftime_Ymd d1 ++ "_" = strftime_Ymd d2 ++ "_" -> d1 = d2.
Proof.
  unfold valid_date, strftime_Ymd; intros (Hy1 & Hm1 & Hd1) (Hy2 & Hm2 & Hd2) Heq.
  pose proof MAXYEAR_lt.
  pose proof (days_in_month_le_31 (year d1) (month d1)).
  pose proof (days_in_month_le_31 (year d2) (month d2)).
  destruct (zpad_spec 4 (year d1)) as [Dy1 Ly1],
    (zpad_spec 4 (year d2)) as [Dy2 Ly2],
    (zpad_spec 2 (month d1)) as [Dm1 Lm1],
    (zpad_spec 2 (month d2)) as [Dm2 Lm2],
    (zpad_spec 2 (day d1)) as [Dd1 Ld1],
    (zpad_spec 2 (day d2)) as [Dd2 Ld2].
  rewrite !string_app_assoc in Heq.
  apply string_app_inj_len in Heq as [Ey Heq]; [|rewrite Ly1, Ly2; lia].
  apply string_app_inj_len in Heq as [Em Heq];
    [|rewrite Lm1, Lm2; cbn; lia].
  apply string_app_inj_len in Heq as [Ed _];
    [|rewrite Ld1, Ld2; cbn; lia].
  destruct d1 as [y1 m1 dd1], d2 as [y2 m2 dd2]; cbn in *.
  rewrite <- Dy1, <- Dy2, <- Dm1, <- Dm2, <- Dd1, <- Dd2, Ey, Em, Ed.
  reflexivity.
Qed.

Lemma strftime_Ym_length (d : date) :
  valid_date d -> String.length (strftime_Ym d) = 6.
Proof.
  unfold valid_date, strftime_Ym; intros (Hy & Hm & _).
  pose proof MAXYEAR_lt.
  destruct (zpad_spec 4 (year d)) as [_ Ly], (zpad_spec 2 (month d)) as [_ Lm].
  rewrite string_length_app, Ly, Lm by (try lia; cbn; lia). reflexivity.
Qed.

Lemma strftime_Ymd_length (d : date) :
  valid_date d -> String.length (strftime_Ymd d) = 8.
Proof.
  unfold valid_date, strftime_Ymd; intros (Hy & Hm & Hd).
  pose proof MAXYEAR_lt.
  pose proof (days_in_month_le_31 (year d) (month d)).
  destruct (zpad_spec 4 (year d)) as [_ Ly], (zpad_spec 2 (month d)) as [_ Lm],
    (zpad_spec 2 (day d)) as [_ Ld].
  rewrite !string_length_app, Ly, Lm, Ld by (try lia; cbn; lia). reflexivity.
Qed.

Lemma add_one_day_valid (d e : date) :
  valid_date d -> add_one_day d = Ok e -> valid_date e.
Proof.
  intros Hv Ha. destruct d as [y m dd].
  destruct (decide (y = MAXYEAR /\ m = 12 /\ dd = 31)) as [(-> & -> & ->)|Hne'].
  - unfold add_one_day in Ha; cbn [year month day] in Ha.
    change (days_in_month MAXYEAR 12) with 31 in Ha.
    rewrite !Nat.ltb_irrefl in Ha. discriminate Ha.
  - assert (Hne : mkDate y m dd <> mkDate MAXYEAR 12 31)
      by (intros E; injection E; tauto).
    destruct (add_one_day_spec _ Hv Hne) as (e' & Ha' & Hv' & _).
    rewrite Ha in Ha'. injection Ha' as ->. exact Hv'.
Qed.

Lemma add_one_day_inj (d1 d2 e : date) :
  valid_date d1 -> valid_date d2 ->
  add_one_day d1 = Ok e -> add_one_day d2 = Ok e -> d1 = d2.
Proof.
  destruct d1 as [y1 m1 a1], d2 as [y2 m2 a2];
    unfold valid_date, add_one_day; cbn [year month day].
  intros V1 V2 H1 H2.
  repeat match goal with
  | H : context [Nat.ltb ?a ?b] |- _ => destruct (Nat.ltb_spec a b)
  end; try discriminate H1; try discriminate H2;
  injection H1 as <-; injection H2; intros; subst;
  try (match goal with
       | |- mkDate _ ?m ?a = mkDate _ ?m' ?a' => assert (m = m') by lia; subst
       end); f_equal; lia.
Qed.

Lemma publish_date_valid (d e : date) (r : market_report) :
  valid_date d ->
  (if uses_publish_date r then add_one_day d else Ok d) = Ok e ->
  valid_date e.
Proof.
  intros Hv; destruct (uses_publish_date r);
    [apply add_one_day_valid, Hv|intros H; injection H as <-; exact Hv].
Qed.

(** Extra: distinct valid request dates never share an unarchived file name.
    If [market_report_filename d1 r False] and [market_report_filename d2 r
    False] both return the same name, then [d1 = d2]: the daily files of a
    report are in one-to-one correspondence with the request dates. *)
Theorem daily_filename_injective (d1 d2 : date) (r : market_report) (n : string) :
  valid_date d1 -> valid_date d2 ->
  market_report_filename d1 r false = Ok n ->
  market_report_filename d2 r false = Ok n -> d1 = d2.
Proof.
  intros V1 V2; unfold market_report_filename.
  destruct (if uses_publish_date r then add_one_day d1 else Ok d1) as [e1|x1] eqn:E1;
    [|discriminate]; cbn [res_bind].
  destruct (if uses_publish_date r then add_one_day d2 else Ok d2) as [e2|x2] eqn:E2;
    [|discriminate]; cbn [res_bind].
  pose proof (publish_date_valid d1 e1 r V1 E1) as W1.
  pose proof (publish_date_valid d2 e2 r V2 E2) as W2.
  destruct (MARKET_REPORT_FILES_SUFFIX_EXT r) as [suffix ext].
  intros H1 H2; rewrite <- H2 in H1; injection H1 as H.
  apply string_app_inj_len in H as [H _];
    [|rewrite (strftime_Ymd_length e1 W1), (strftime_Ymd_length e2 W2); reflexivity].
  assert (He : e1 = e2) by (apply strftime_Ymd_inj; [exact W1|exact W2|rewrite H; reflexivity]).
  subst e2. destruct (uses_publish_date r).
  - exact (add_one_day_inj d1 d2 e1 V1 V2 E1 E2).
  - injection E1 as <-; injection E2 as <-; reflexivity.
Qed.

Lemma daily_filename_injective_witness :
  valid_date (mkDate 2024 2 28) /\ valid_date (mkDate 2024 2 28) /\
  market_report_filename (mkDate 2024 2 28) FORECAST_AND_LOAD false =
    Ok "20240229_df_al.xls" /\
  mkDate 2024 2 28 = mkDate 2024 2 28.
Proof.
  assert (V : valid_date (mkDate 2024 2 28))
    by (apply valid_date_check; vm_compute; reflexivity).
  assert (F : market_report_filename (mkDate 2024 2 28) FORECAST_AND_LOAD false =
              Ok "20240229_df_al.xls") by reflexivity.
  split; [exact V|split; [exact V|split; [exact F|]]].
  exact (daily_filename_injective _ _ FORECAST_AND_LOAD _ V V F F).
Defined.

(** Extra: two valid request dates get the same archived (monthly zip) file
    name exactly when the dates the names are built from (the publish date,
    one day later, for the publish-dated kinds) fall in the same year and
    month. *)
Theorem archived_filename_same_month (d1 d2 e1 e2 : date) (r : market_report) :
  valid_date d1 -> valid_date d2 ->
  (if uses_publish_date r then add_one_day d1 else Ok d1) = Ok e1 ->
  (if uses_publish_date r then add_one_day d2 else Ok d2) = Ok e2 ->
  market_report_filename d1 r true = market_report_filename d2 r true <->
  year e1 = year e2 /\ month e1 = month e2.
Proof.
  intros V1 V2 E1 E2.
  pose proof (publish_date_valid d1 e1 r V1 E1) as W1.
  pose proof (publish_date_valid d2 e2 r V2 E2) as W2.
  unfold market_report_filename; rewrite E1, E2; cbn [res_bind].
  destruct (MARKET_REPORT_FILES_SUFFIX_EXT r) as [suffix ext].
  split.
  - intros H; injection H as H.
    apply string_app_inj_len in H as [H _];
      [|rewrite (strftime_Ym_length e1 W1), (strftime_Ym_length e2 W2); reflexivity].
    apply strftime_Ym_inj; [exact W1|exact W2|rewrite H; reflexivity].
  - intros [Hy Hm]. unfold strftime_Ym. rewrite Hy, Hm. reflexivity.
Qed.

Lemma archived_filename_same_month_witness :
  (market_report_filename (mkDate 2024 1 4) DAYAHEAD_EXANTE_LMP true =
   market_report_filename (mkDate 2024 1 30) DAYAHEAD_EXANTE_LMP true <->
   year (mkDate 2024 1 4) = year (mkDate 2024 1 30) /\
   month (mkDate 2024 1 4) = month (mkDate 2024 1 30)).
Proof.
  apply archived_filename_same_month;
    [apply valid_date_check; vm_compute; reflexivity
    |apply valid_date_check; vm_compute; reflexivity
    |reflexivity|reflexivity].
Defined.

(** ** Events of the batch path *)

(** An event of the url-resolution phase: a fetch of a url satisfying [P],
    or a sleep between attempts. *)
Definition fetch_or_sleep (P : string -> Prop) (ev : event) : Prop :=
  match ev with EvFetch u => P u | EvSleep _ => True | _ => False end.

(** An event of the download loop: a fetch of a url satisfying [P], a sleep,
    or a call of the parse function. *)
Definition loop_event (P : string -> Prop) (ev : event) : Prop :=
  match ev with
  | EvFetch u => P u
  | EvSleep _ | EvParse _ => True
  | _ => False
  end.

(** Any event, where a fetch is one of a url satisfying [P]. *)
Definition fetched_in (P : string -> Prop) (ev : event) : Prop :=
  match ev with EvFetch u => P u | _ => True end.

(** The date lists and the file-name lists of the warnings in a trace. *)
Fixpoint date_warnings (tr : list event) : list (list date) :=
  match tr with
  | [] => []
  | EvWarnDates ds :: tr' => ds :: date_warnings tr'
  | _ :: tr' => date_warnings tr'
  end.

Fixpoint file_warnings (tr : list event) : list (list string) :=
  match tr with
  | [] => []
  | EvWarnFiles ns :: tr' => ns :: file_warnings tr'
  | _ :: tr' => file_warnings tr'
  end.

(** The two candidate urls of a date. *)
Definition candidate_url (d : date) (r : market_report) (u : string) : Prop :=
  exists a n, market_report_filename d r a = Ok n /\ u = urljoin [BASE_URL; n].

(** Whether the url resolution of [d] finds neither file. *)
Definition url_missing {B} (net : string -> nat -> result B)
    (r : market_report) (d : date) : bool :=
  match snd (market_report_url net d r) with Ok None => true | _ => false end.

Lemma io_bind_Forall {A C} (Q : event -> Prop) (m : io A) (k : A -> io C) :
  Forall Q (fst m) -> (forall a, snd m = Ok a -> Forall Q (fst (k a))) ->
  Forall Q (fst (io_bind m k)).
Proof.
  intros H1 H2; rewrite io_bind_fst; apply Forall_app; split; [exact H1|].
  destruct (snd m) as [a|e]; [apply H2; reflexivity|constructor].
Qed.

Lemma fetch_or_sleep_mono (P Q : string -> Prop) (tr : list event) :
  (forall u, P u -> Q u) -> Forall (fetch_or_sleep P) tr ->
  Forall (fetch_or_sleep Q) tr.
Proof.
  intros HPQ H; induction H as [|ev tr Hx _ IH]; constructor; [|exact IH].
  destruct ev; simpl in *; auto.
Qed.

Lemma loop_event_mono (P Q : string -> Prop) (tr : list event) :
  (forall u, P u -> Q u) -> Forall (loop_event P) tr -> Forall (loop_event Q) tr.
Proof.
  intros HPQ H; induction H as [|ev tr Hx _ IH]; constructor; [|exact IH].
  destruct ev; simpl in *; auto.
Qed.

Lemma fetch_or_sleep_loop (P : string -> Prop) (tr : list event) :
  Forall (fetch_or_sleep P) tr -> Forall (loop_event P) tr.
Proof.
  intros H; induction H as [|ev tr Hx _ IH]; constructor; [|exact IH].
  destruct ev; simpl in *; auto.
Qed.

Lemma fetch_or_sleep_fetched (P Q : string -> Prop) (tr : list event) :
  (forall u, P u -> Q u) -> Forall (fetch_or_sleep P) tr ->
  Forall (fetched_in Q) tr.
Proof.
  intros HPQ H; induction H as [|ev tr Hx _ IH]; constructor; [|exact IH].
  destruct ev; simpl in *; auto.
Qed.

Lemma loop_event_fetched (P Q : string -> Prop) (tr : list event) :
  (forall u, P u -> Q u) -> Forall (loop_event P) tr -> Forall (fetched_in Q) tr.
Proof.
  intros HPQ H; induction H as [|ev tr Hx _ IH]; constructor; [|exact IH].
  destruct ev; simpl in *; auto.
Qed.

Lemma date_warnings_app (t1 t2 : list event) :
  date_warnings (app t1 t2) = app (date_warnings t1) (date_warnings t2).
Proof. induction t1 as [|[] t1 IH]; simpl; rewrite ?IH; reflexivity. Qed.

Lemma file_warnings_app (t1 t2 : list event) :
  file_warnings (app t1 t2) = app (file_warnings t1) (file_warnings t2).
Proof. induction t1 as [|[] t1 IH]; simpl; rewrite ?IH; reflexivity. Qed.

Lemma loop_event_no_warnings (P : string -> Prop) (tr : list event) :
  Forall (loop_event P) tr -> date_warnings tr = [] /\ file_warnings tr = [].
Proof.
  intros H; induction H as [|ev tr Hx _ IH]; [split; reflexivity|].
  destruct ev; simpl in *; tauto.
Qed.

Lemma fetch_attempt_events {B} (net : string -> nat -> result B) url rem n :
  Forall (fetch_or_sleep (fun u => u = url)) (fst (fetch_attempt net url rem n)).
Proof.
  revert n; induction rem as [|rem IH]; intros n; simpl.
  - destruct (net url n) as [b|e]; [|destruct (negb (is_retryable_error e))];
      (constructor; [reflexivity|constructor]).
  - destruct (net url n) as [b|e]; [constructor; [reflexivity|constructor]|].
    destruct (negb (is_retryable_error e)); [constructor; [reflexivity|constructor]|].
    specialize (IH (S n)).
    destruct (fetch_attempt net url rem (S n)); simpl in *.
    constructor; [reflexivity|constructor; [exact I|exact IH]].
Qed.

Lemma check_url_exists_events {B} (net : string -> nat -> result B) url :
  Forall (fetch_or_sleep (fun u => u = url)) (fst (check_url_exists net url)).
Proof.
  pose proof (fetch_attempt_events net url (MAX_ATTEMPTS - 1) 1) as H.
  unfold check_url_exists, _fetch.
  destruct (fetch_attempt net url (MAX_ATTEMPTS - 1) 1) as [t [b|[s|c|cls msg]]];
    simpl in *; try destruct (Nat.eqb s 404); exact H.
Qed.

Lemma market_report_url_events {B} (net : string -> nat -> result B) d r :
  Forall (fetch_or_sleep (candidate_url d r)) (fst (market_report_url net d r)).
Proof.
  unfold market_report_url.
  apply io_bind_Forall; [constructor|]. intros n1 Hn1; cbn [io_lift snd] in Hn1.
  apply io_bind_Forall.
  { apply (fetch_or_sleep_mono (fun u => u = urljoin [BASE_URL; n1]));
      [|apply check_url_exists_events].
    intros u ->; exists false, n1; split; [exact Hn1|reflexivity]. }
  intros ex _; destruct ex; [constructor|].
  apply io_bind_Forall; [constructor|]. intros n2 Hn2; cbn [io_lift snd] in Hn2.
  apply io_bind_Forall.
  { apply (fetch_or_sleep_mono (fun u => u = urljoin [BASE_URL; n2]));
      [|apply check_url_exists_events].
    intros u ->; exists true, n2; split; [exact Hn2|reflexivity]. }
  intros ex _; destruct ex; constructor.
Qed.

Lemma io_mapM_events {A C} (Q : event -> Prop) (f : A -> io C) (l : list A) :
  (forall x, In x l -> Forall Q (fst (f x))) -> Forall Q (fst (io_mapM f l)).
Proof.
  induction l as [|x l IH]; intros Hf; simpl; [constructor|].
  apply io_bind_Forall; [apply Hf; left; reflexivity|]. intros y _.
  apply io_bind_Forall; [apply IH; intros x' Hx'; apply Hf; right; exact Hx'|].
  intros ys _; constructor.
Qed.

Lemma combine_Forall2_complete {A C} (P : A -> C -> Prop) xs ys x :
  Forall2 P xs ys -> In x xs -> exists y, In (x, y) (combine xs ys) /\ P x y.
Proof.
  intros H; induction H as [|x' y' xs ys Hp Hr IH]; simpl; [tauto|].
  intros [<-|Hin]; [exists y'; auto|].
  destruct (IH Hin) as (y & ? & ?); exists y; auto.
Qed.

Lemma unresolved_dates_filter {B} (net : string -> nat -> result B) r dates urls :
  Forall2 (fun x y => snd (market_report_url net x r) = Ok y) dates urls ->
  unresolved_dates (combine dates urls) = List.filter (url_missing net r) dates.
Proof.
  intros H; induction H as [|x [u|] xs ys Hp Hr IH]; simpl; [reflexivity| |];
    unfold url_missing at 1; rewrite Hp; simpl; rewrite IH; reflexivity.
Qed.

Lemma get_all_market_report_urls_complete {B} (net : string -> nat -> result B)
    dates r dict :
  snd (get_all_market_report_urls net dates r) = Ok dict ->
  forall d, In d dates ->
    snd (market_report_url net d r) = Ok None \/
    exists u, In (d, u) dict /\ snd (market_report_url net d r) = Ok (Some u).
Proof.
  unfold get_all_market_report_urls. rewrite io_bind_snd.
  destruct (snd (io_mapM _ dates)) as [urls|] eqn:Hm; [|discriminate].
  apply io_mapM_ok in Hm.
  rewrite io_bind_snd.
  intros Hd d Hin.
  destruct (combine_Forall2_complete _ _ _ d Hm Hin) as ([u|] & Hc & Hp);
    [right; exists u; split; [|exact Hp]|left; exact Hp].
  destruct (unresolved_dates (combine dates urls)); simpl in Hd;
    injection Hd as <-; apply resolved_pairs_In; exact Hc.
Qed.

Lemma get_all_market_report_urls_events {B} (net : string -> nat -> result B)
    dates r :
  exists t ws, fst (get_all_market_report_urls net dates r) = app t ws /\
    Forall (fetch_or_sleep (fun u => exists d, In d dates /\ candidate_url d r u)) t /\
    Forall (fun ev => exists ms, ev = EvWarnDates ms) ws /\
    (forall urls, snd (io_mapM (fun d => market_report_url net d r) dates) = Ok urls ->
       date_warnings ws =
         match List.filter (url_missing net r) dates with
         | [] => []
         | missing => [missing]
         end).
Proof.
  unfold get_all_market_report_urls.
  pose proof (io_mapM_events
    (fetch_or_sleep (fun u => exists d, In d dates /\ candidate_url d r u))
    (fun d => market_report_url net d r) dates) as Hev.
  destruct (io_mapM (fun d => market_report_url net d r) dates) as [t [urls|e]] eqn:Hm.
  - rewrite io_bind_ok.
    assert (H2 : Forall2 (fun x y => snd (market_report_url net x r) = Ok y)
                   dates urls) by (apply io_mapM_ok; rewrite Hm; reflexivity).
    rewrite (unresolved_dates_filter net r dates urls H2).
    exists t. eexists; split; [reflexivity|]. split.
    + change t with (fst (t, @Ok (list (option string)) urls)). apply Hev.
      intros x Hx. apply (fetch_or_sleep_mono (candidate_url x r));
        [intros u Hu; exists x; auto|apply market_report_url_events].
    + cbn [snd]; destruct (List.filter (url_missing net r) dates);
        cbn; (split; [try (constructor; [eexists; reflexivity|]); constructor
                     |intros urls' _; reflexivity]).
  - rewrite io_bind_err. exists t, []. rewrite app_nil_r.
    split; [reflexivity|]. split.
    + change t with (fst (t, @Err (list (option string)) e)). apply Hev.
      intros x Hx. apply (fetch_or_sleep_mono (candidate_url x r));
        [intros u Hu; exists x; auto|apply market_report_url_events].
    + split; [constructor|]. intros urls Hu; discriminate.
Qed.

Lemma date_warning_events (P : string -> Prop) (ws : list event) :
  Forall (fun ev => exists ms, ev = EvWarnDates ms) ws ->
  file_warnings ws = [] /\ parsed_names ws = [] /\ Forall (fetched_in P) ws.
Proof.
  intros H; induction H as [|ev ws [ms ->] _ IH];
    [split; [reflexivity|split; [reflexivity|constructor]]|].
  destruct IH as (H1 & H2 & H3); cbn [file_warnings parsed_names].
  split; [exact H1|split; [exact H2|constructor; [exact I|exact H3]]].
Qed.

Lemma get_all_market_report_urls_mapM_ok {B} (net : string -> nat -> result B)
    dates r dict :
  snd (get_all_market_report_urls net dates r) = Ok dict ->
  exists urls, snd (io_mapM (fun d => market_report_url net d r) dates) = Ok urls.
Proof.
  unfold get_all_market_report_urls. rewrite io_bind_snd.
  destruct (snd (io_mapM _ dates)) as [urls|]; [eauto|discriminate].
Qed.

(** Extra: when url resolution succeeds, the returned dictionary maps
    exactly the requested dates whose resolution found a file, each to the
    url found; every other requested date resolved to [None]; and the trace
    holds one date warning, listing those other dates in request order, if
    there is any such date, and none otherwise. *)
Theorem get_all_market_report_urls_partition {B} (net : string -> nat -> result B)
    (dates : list date) (r : market_report) dict
    (H : snd (get_all_market_report_urls net dates r) = Ok dict) :
  (forall d u, In (d, u) dict <->
     In d dates /\ snd (market_report_url net d r) = Ok (Some u)) /\
  (forall d, In d dates ->
     snd (market_report_url net d r) = Ok None \/ exists u, In (d, u) dict) /\
  date_warnings (fst (get_all_market_report_urls net dates r)) =
    match List.filter (url_missing net r) dates with
    | [] => []
    | missing => [missing]
    end.
Proof.
  split; [|split].
  - intros d u; split.
    + apply (get_all_market_report_urls_sound net dates r dict H).
    + intros [Hd Hu].
      destruct (get_all_market_report_urls_complete net dates r dict H d Hd)
        as [Hn|(u' & Hin & Hu')]; [congruence|].
      rewrite Hu in Hu'; injection Hu' as <-; exact Hin.
  - intros d Hd.
    destruct (get_all_market_report_urls_complete net dates r dict H d Hd)
      as [Hn|(u & Hin & _)]; [left; exact Hn|right; eauto].
  - destruct (get_all_market_report_urls_events net dates r)
      as (t & ws & -> & Ht & _ & Hws).
    destruct (get_all_market_report_urls_mapM_ok net dates r dict H) as [urls Hu].
    rewrite date_warnings_app, (Hws urls Hu).
    rewrite (proj1 (loop_event_no_warnings _ _ (fetch_or_sleep_loop _ _ Ht))).
    reflexivity.
Qed.

(** A server that holds one file only: the daily day-ahead ex-post LMP file
    of 2024-01-04. *)
Definition one_file_net (u : string) (_ : nat) : result unit :=
  if String.eqb u (BASE_URL ++ "/20240104_da_expost_lmp.csv") then Ok tt
  else Err (ClientResponseError 404).

Lemma get_all_market_report_urls_partition_witness :
  snd (get_all_market_report_urls one_file_net
         [mkDate 2024 1 4; mkDate 2024 1 5] DAYAHEAD_EXPOST_LMP) =
    Ok [(mkDate 2024 1 4, BASE_URL ++ "/20240104_da_expost_lmp.csv")] /\
  date_warnings (fst (get_all_market_report_urls one_file_net
         [mkDate 2024 1 4; mkDate 2024 1 5] DAYAHEAD_EXPOST_LMP)) =
    match List.filter (url_missing one_file_net DAYAHEAD_EXPOST_LMP)
            [mkDate 2024 1 4; mkDate 2024 1 5] with
    | [] => []
    | missing => [missing]
    end.
Proof.
  assert (H : snd (get_all_market_report_urls one_file_net
         [mkDate 2024 1 4; mkDate 2024 1 5] DAYAHEAD_EXPOST_LMP) =
    Ok [(mkDate 2024 1 4, BASE_URL ++ "/20240104_da_expost_lmp.csv")])
    by (vm_compute; reflexivity).
  split; [exact H|].
  exact (proj2 (proj2 (get_all_market_report_urls_partition _ _ _ _ H))).
Defined.

Lemma process_members_events {B} (parse_fn : B -> result table) P zfile members
    S dfs :
  Forall (loop_event P) (fst (process_members parse_fn zfile members S dfs)).
Proof.
  revert S dfs; induction members as [|[f x] rest IH]; intros S dfs;
    cbn [process_members]; [constructor|].
  destruct (bool_decide (f ∈ S)); [|apply IH].
  destruct (zread zfile f) as [[b|e]|]; [|constructor|constructor].
  apply io_bind_Forall; [constructor; [exact I|constructor]|]. intros _ _.
  apply io_bind_Forall; [constructor|]. intros df _. apply IH.
Qed.

Lemma process_response_events {B} (net : string -> nat -> result B) unzip
    parse_fn S dfs url :
  Forall (loop_event (fun u => u = url))
    (fst (process_response net unzip parse_fn S dfs url)).
Proof.
  unfold process_response. apply io_bind_Forall.
  { apply fetch_or_sleep_loop, fetch_attempt_events. }
  intros b _.
  destruct (String.eqb (file_ext (url_filename url)) "zip").
  - destruct (unzip b); [apply process_members_events|constructor].
  - destruct (bool_decide (url_filename url ∈ S)); [|constructor].
    apply io_bind_Forall; [constructor; [exact I|constructor]|]. intros _ _.
    apply io_bind_Forall; [constructor|]. intros df _; constructor.
Qed.

Lemma process_responses_events {B} (net : string -> nat -> result B) unzip
    parse_fn urls S dfs :
  Forall (loop_event (fun u => In u urls))
    (fst (process_responses net unzip parse_fn urls S dfs)).
Proof.
  revert S dfs; induction urls as [|url urls IH]; intros S dfs;
    cbn [process_responses]; [constructor|].
  apply io_bind_Forall.
  - eapply loop_event_mono; [|apply process_response_events].
    intros u ->; left; reflexivity.
  - intros st _. eapply loop_event_mono; [|apply IH].
    intros u Hu; right; exact Hu.
Qed.

Lemma as_completed_In (finish_time : string -> nat) (l : list string) u :
  In u (as_completed finish_time l) -> In u l.
Proof.
  unfold as_completed. intros Hin.
  apply list_elem_of_In. apply list_elem_of_In in Hin.
  rewrite merge_sort_Permutation in Hin. exact Hin.
Qed.

Lemma dict_url_In (dict : list (date * string)) u :
  In u (elements (list_to_set (map snd dict) : gset string)) ->
  exists d, In (d, u) dict.
Proof.
  intros Hin. apply list_elem_of_In, elem_of_elements, elem_of_list_to_set,
    list_elem_of_In, in_map_iff in Hin.
  destruct Hin as ([d u'] & <- & Hin); exists d; exact Hin.
Qed.

(** Extra: every HTTP request of a batch retrieval, in url resolution as in
    the download loop, is for one of the two candidate urls of a requested
    date. *)
Theorem retrieve_fetches_only_candidate_urls {B} (net : string -> nat -> result B)
    unzip finish_time (dates : list date) (report : market_report)
    (parse_fn : B -> result table) :
  Forall (fetched_in (fun u => exists d, In d dates /\ candidate_url d report u))
    (fst (retrieve_and_parse_market_report_files net unzip finish_time
            dates report parse_fn)).
Proof.
  unfold retrieve_and_parse_market_report_files.
  apply io_bind_Forall.
  { destruct (get_all_market_report_urls_events net dates report)
      as (t & ws & -> & Ht & Hws & _).
    apply Forall_app; split; [eapply fetch_or_sleep_fetched; [|exact Ht]; auto|].
    apply (date_warning_events _ ws Hws). }
  intros dict Hdict.
  pose proof (get_all_market_report_urls_sound net dates report dict Hdict)
    as Hsound.
  apply io_bind_Forall; [constructor|]. intros names _.
  apply io_bind_Forall.
  - eapply loop_event_fetched; [|apply process_responses_events].
    intros u Hu. apply as_completed_In, dict_url_In in Hu as [d Hin].
    destruct (Hsound d u Hin) as [Hd Hu].
    destruct (market_report_url_Some net d report u Hu) as (a & n & Hn & ->).
    exists d; split; [exact Hd|]. exists a, n; auto.
  - intros [S dfs] _. apply io_bind_Forall.
    + cbn [fst]; destruct (bool_decide (S = ∅)); [constructor|].
      constructor; [exact I|constructor].
    + intros _ _; constructor.
Qed.

Lemma res_mapM_complete {A C} (f : A -> result C) (l : list A) (ys : list C) x y :
  res_mapM f l = Ok ys -> In x l -> f x = Ok y -> In y ys.
Proof.
  revert ys; induction l as [|x' l IH]; intros ys; simpl; [intros _ []|].
  destruct (f x') as [y0|] eqn:Hx; [|discriminate]; simpl.
  destruct (res_mapM f l) as [ys'|] eqn:Hl; [|discriminate]; simpl.
  intros H; injection H as <-. intros [<-|Hin] Hf.
  - rewrite Hf in Hx; injection Hx as ->; left; reflexivity.
  - right; exact (IH ys' eq_refl Hin Hf).
Qed.

Lemma expected_names_exact {B} (net : string -> nat -> result B) dates report
    dict names :
  snd (get_all_market_report_urls net dates report) = Ok dict ->
  res_mapM (fun p => market_report_filename (fst p) report false) dict = Ok names ->
  forall n, n ∈ (list_to_set names : gset string) <->
            expected_name net dates report n.
Proof.
  intros Hdict Hnames n; split.
  - intros Hn. apply elem_of_list_to_set, list_elem_of_In in Hn.
    destruct (res_mapM_ok _ _ _ Hnames n Hn) as ([d u] & Hin & Hfn).
    destruct (get_all_market_report_urls_sound net dates report dict Hdict d u Hin)
      as [Hd Hu].
    exists d, u; auto.
  - intros (d & u & Hd & Hu & Hfn).
    destruct (get_all_market_report_urls_complete net dates report dict Hdict d Hd)
      as [Hn|(u' & Hin & _)]; [congruence|].
    apply elem_of_list_to_set, list_elem_of_In.
    exact (res_mapM_complete _ _ _ (d, u') n Hnames Hin Hfn).
Qed.

(** Extra: when a batch retrieval returns a table, its trace holds at most
    one missing-files warning; the warning is there exactly when some
    expected file name (the unarchived name of a requested date that
    resolved to a url) was never handed to the parse function, and it lists
    exactly those names, each once. *)
Theorem retrieve_missing_files_warning {B} (net : string -> nat -> result B)
    unzip finish_time (dates : list date) (report : market_report)
    (parse_fn : B -> result table) (tbl : table)
    (H : snd (retrieve_and_parse_market_report_files net unzip finish_time
                dates report parse_fn) = Ok tbl) :
  let tr := fst (retrieve_and_parse_market_report_files net unzip finish_time
                   dates report parse_fn) in
  exists missing,
    file_warnings tr = match missing with [] => [] | _ => [missing] end /\
    NoDup missing /\
    forall n, In n missing <->
      expected_name net dates report n /\ ~ In n (parsed_names tr).
Proof.
  revert H; cbv zeta. unfold retrieve_and_parse_market_report_files.
  destruct (get_all_market_report_urls_events net dates report)
    as (t0 & ws & Hf0 & Ht0 & Hws & _).
  pose proof (get_all_market_report_urls_no_parse net dates report) as Hnp0.
  assert (Hfw0 : file_warnings (fst (get_all_market_report_urls net dates report)) = []).
  { rewrite Hf0, file_warnings_app,
      (proj2 (loop_event_no_warnings _ _ (fetch_or_sleep_loop _ _ Ht0))).
    rewrite (proj1 (date_warning_events (fun _ => True) ws Hws)); reflexivity. }
  pose proof (expected_names_exact net dates report) as Hexp.
  destruct (get_all_market_report_urls net dates report) as [tg [dict|e]];
    cbn [fst snd] in *; [rewrite io_bind_ok|rewrite io_bind_err; discriminate].
  specialize (Hexp dict). unfold io_lift.
  destruct (res_mapM _ dict) as [names|e] eqn:Hnames;
    [rewrite io_bind_ok|rewrite io_bind_err; discriminate].
  specialize (Hexp names eq_refl eq_refl). cbn [fst snd app].
  match goal with
  | |- context [process_responses net unzip parse_fn ?us ?S0 []] =>
      pose proof (process_responses_spec B net unzip parse_fn us S0 [])
        as (Hnd & Hsub & Hres);
      pose proof (process_responses_events net unzip parse_fn us S0 []) as Hev;
      destruct (process_responses net unzip parse_fn us S0 []) as [t1 [[S dfs]|e]]
  end; cbn [fst snd] in Hnd, Hsub, Hres, Hev;
    [rewrite io_bind_ok|rewrite io_bind_err; discriminate].
  destruct (Hres S dfs eq_refl) as [Hmem _]. cbn [fst snd].
  intros _. exists (elements S).
  destruct (bool_decide (S = ∅)) eqn:HS; unfold io_ret, io_emit;
    rewrite io_bind_ok; cbn [fst snd io_lift];
    rewrite !file_warnings_app, !parsed_names_app, Hfw0, Hnp0,
      (proj2 (loop_event_no_warnings _ _ Hev));
    cbn [file_warnings parsed_names app]; rewrite ?app_nil_r.
  all: split; [|split; [apply NoDup_elements|]].
  2, 4: intros n; rewrite <- list_elem_of_In, elem_of_elements, Hmem, Hexp;
    reflexivity.
  - apply bool_decide_eq_true in HS; subst S; rewrite elements_empty; reflexivity.
  - apply bool_decide_eq_false in HS.
    destruct (elements S) eqn:HE; [|reflexivity].
    exfalso; apply HS, leibniz_equiv, elements_empty_inv, HE.
Qed.

(** A monthly archive of day-ahead ex-ante LMP files for January 2024 that
    holds the files of the 4th and the 7th only; no daily file is
    published.  Payloads are numbered: 0 is the archive, 1 and 2 its
    members, and each member parses to one row. *)
Definition arch_name : string := "202401_da_exante_lmp_csv.zip".

Definition arch_net (u : string) (_ : nat) : result nat :=
  if String.eqb (url_filename u) arch_name then Ok 0
  else Err (ClientResponseError 404).

Definition arch_unzip (b : nat) : option (list (string * result nat)) :=
  match b with
  | 0 => Some [("20240104_da_exante_lmp.csv", Ok 1);
               ("20240107_da_exante_lmp.csv", Ok 2)]
  | _ => None
  end.

Definition arch_parse (b : nat) : result table :=
  Ok [mkRow (Z.of_nat b) (Z.of_nat b + 60) None []].

Lemma retrieve_missing_files_warning_witness :
  snd (retrieve_and_parse_market_report_files arch_net arch_unzip (fun _ => 0)
         [mkDate 2024 1 4; mkDate 2024 1 5] DAYAHEAD_EXANTE_LMP arch_parse) =
    Ok [mkRow 1 61 None []] /\
  exists missing,
    file_warnings (fst (retrieve_and_parse_market_report_files arch_net
      arch_unzip (fun _ => 0) [mkDate 2024 1 4; mkDate 2024 1 5]
      DAYAHEAD_EXANTE_LMP arch_parse)) =
      match missing with [] => [] | _ => [missing] end /\
    NoDup missing /\
    forall n, In n missing <->
      expected_name arch_net [mkDate 2024 1 4; mkDate 2024 1 5]
        DAYAHEAD_EXANTE_LMP n /\
      ~ In n (parsed_names (fst (retrieve_and_parse_market_report_files
          arch_net arch_unzip (fun _ => 0) [mkDate 2024 1 4; mkDate 2024 1 5]
          DAYAHEAD_EXANTE_LMP arch_parse))).
Proof.
  assert (H : snd (retrieve_and_parse_market_report_files arch_net arch_unzip
    (fun _ => 0) [mkDate 2024 1 4; mkDate 2024 1 5] DAYAHEAD_EXANTE_LMP
    arch_parse) = Ok [mkRow 1 61 None []]) by (vm_compute; reflexivity).
  split; [exact H|].
  exact (retrieve_missing_files_warning _ _ _ _ _ _ _ H).
Defined.

Lemma zread_fold_Some {B} (l : list (string * B)) (n : string) acc :
  (acc <> None \/ exists b, In (n, b) l) ->
  fold_left (fun acc '(m, b) => if String.eqb m n then Some b else acc) l acc
    <> None.
Proof.
  revert acc; induction l as [|[m b] l IH]; intros acc Hpre; simpl.
  - destruct Hpre as [Hne|(b & [])]; exact Hne.
  - apply IH. destruct (String.eqb m n) eqn:Hm; [left; discriminate|].
    destruct Hpre as [Hne|(b' & [Heq|Hin])]; [left; exact Hne| |right; eauto].
    injection Heq as -> _. rewrite String.eqb_refl in Hm; discriminate.
Qed.

Lemma zread_In {B} (zfile : list (string * B)) n b :
  In (n, b) zfile -> exists b', zread zfile n = Some b'.
Proof.
  intros Hin. unfold zread.
  destruct (fold_left _ zfile None) as [b'|] eqn:Hz; [eauto|].
  exfalso; exact (zread_fold_Some zfile n None (or_intror (ex_intro _ b Hin)) Hz).
Qed.

Lemma process_members_error {B} (parse_fn : B -> result table) zfile members
    S dfs e :
  (forall n b, In (n, b) members -> exists b', In (n, b') zfile) ->
  snd (process_members parse_fn zfile members S dfs) = Err e ->
  exists n, n ∈ S /\ In n (map fst members) /\
    (zread zfile n = Some (Err e) \/
     exists b, zread zfile n = Some (Ok b) /\ parse_fn b = Err e).
Proof.
  revert S dfs; induction members as [|[f x] rest IH]; intros S dfs Hm;
    cbn [process_members]; [discriminate|].
  assert (Hrest : forall n b, In (n, b) rest -> exists b', In (n, b') zfile)
    by (intros n b Hin; apply (Hm n b); right; exact Hin).
  destruct (bool_decide (f ∈ S)) eqn:Hb.
  - apply bool_decide_eq_true in Hb.
    destruct (zread zfile f) as [[b|e']|] eqn:Hz.
    + unfold io_emit; rewrite io_bind_ok; cbn [snd].
      rewrite io_bind_snd; cbn [io_lift snd].
      destruct (parse_fn b) as [df|e'] eqn:Hp.
      * intros Hrec. destruct (IH _ _ Hrest Hrec) as (n & HnS & Hn & Hor).
        exists n; split; [set_solver|]; split; [right; exact Hn|exact Hor].
      * intros He; injection He as ->.
        exists f; split; [exact Hb|]; split; [left; reflexivity|eauto].
    + intros He; injection He as ->.
      exists f; split; [exact Hb|]; split; [left; reflexivity|auto].
    + exfalso. destruct (Hm f x (or_introl eq_refl)) as [b' Hin].
      destruct (zread_In zfile f b' Hin) as [b'' Hz']. congruence.
  - intros Hrec. destruct (IH _ _ Hrest Hrec) as (n & HnS & Hn & Hor).
    exists n; split; [exact HnS|]; split; [right; exact Hn|exact Hor].
Qed.

(** Extra: walking the members of a downloaded archive never raises
    [KeyError] from [zfile.read]: when the walk fails, its error is the one
    [zfile.read] raised on a listed member whose name is still expected,
    or the one the parse function raised on that member's content. *)
Theorem archive_walk_error_origin {B} (parse_fn : B -> result table)
    (zfile : list (string * result B)) (S : gset string) (dfs : list table)
    (e : py_exc)
    (H : snd (process_members parse_fn zfile zfile S dfs) = Err e) :
  exists n, n ∈ S /\ In n (map fst zfile) /\
    (zread zfile n = Some (Err e) \/
     exists b, zread zfile n = Some (Ok b) /\ parse_fn b = Err e).
Proof.
  apply (process_members_error parse_fn zfile zfile S dfs e); [|exact H].
  intros n b Hin; exists b; exact Hin.
Qed.

(** An archive whose only member fails its CRC check. *)
Definition crc_error : py_exc := PyExc "BadZipFile" "Bad CRC-32 for file 'a.csv'".

Definition crc_zip : list (string * result nat) := [("a.csv", Err crc_error)].

Lemma archive_walk_error_origin_witness :
  snd (process_members (fun _ : nat => Ok []) crc_zip crc_zip {[ "a.csv" ]} []) =
    Err crc_error /\
  exists n, n ∈ ({[ "a.csv" ]} : gset string) /\ In n (map fst crc_zip) /\
    (zread crc_zip n = Some (Err crc_error) \/
     exists b, zread crc_zip n = Some (Ok b) /\
       (fun _ : nat => @Ok table []) b = Err crc_error).
Proof.
  assert (H : snd (process_members (fun _ : nat => Ok []) crc_zip crc_zip
                     {[ "a.csv" ]} []) = Err crc_error)
    by (vm_compute; reflexivity).
  split; [exact H|]. exact (archive_walk_error_origin _ _ _ _ _ H).
Defined.

(** ** Existence probe ([BaseClient.check_url_exists]) *)

(** Extra: an existence probe makes the attempts of one fetch (between 1
    and 10, every attempt before the last failing with a connection error)
    and answers [True] when the last attempt succeeded, [False] when it
    failed with HTTP 404, and re-raises any other error of the last
    attempt. *)
Theorem check_url_exists_outcome {B} (net : string -> nat -> result B)
    (url : string) :
  exists m, 1 <= m <= MAX_ATTEMPTS /\
    fst (check_url_exists net url) = retry_trace url m /\
    (forall k, 1 <= k < m -> exists c, net url k = Err (ClientConnectionError c)) /\
    snd (check_url_exists net url) =
      match net url m with
      | Ok _ => Ok true
      | Err (ClientResponseError s) =>
          if Nat.eqb s 404 then Ok false else Err (ClientResponseError s)
      | Err e => Err e
      end.
Proof.
  destruct (fetch_attempt_spec net url (MAX_ATTEMPTS - 1) 1)
    as (m & Hm & Ht & Hc & Hs & _).
  replace (1 + m - 1) with m in * by lia.
  exists m. split; [unfold MAX_ATTEMPTS in *; lia|].
  unfold check_url_exists, _fetch.
  destruct (fetch_attempt net url (MAX_ATTEMPTS - 1) 1) as [t res].
  cbn [fst snd] in Ht, Hs; subst t res.
  split; [|split; [intros k Hk; apply Hc; lia|]].
  - destruct (net url m) as [b|[s|c|cls msg]]; try destruct (Nat.eqb s 404);
      reflexivity.
  - destruct (net url m) as [b|[s|c|cls msg]]; try destruct (Nat.eqb s 404);
      reflexivity.
Qed.

(** ** Live-API payloads *)

Lemma split_aux_nil (s cur : LiveApi.ustring) :
  LiveApi.split_aux s cur = [] <->
  cur = [] /\ (forall c, In c s -> LiveApi.is_space c = true).
Proof.
  revert cur; induction s as [|x s IH]; intros cur; cbn [LiveApi.split_aux].
  - destruct cur as [|y cur].
    + split; [intros _; split; [reflexivity|intros c []]|intros _; reflexivity].
    + split; [discriminate|intros [H _]; discriminate].
  - destruct (LiveApi.is_space x) eqn:Hx.
    + destruct cur as [|y cur].
      * rewrite IH. split; intros [_ H]; split; auto.
        -- intros c [<-|Hc]; auto.
        -- intros c Hc; apply H; right; exact Hc.
      * split; [discriminate|intros [H _]; discriminate].
    + rewrite IH. split; intros [H1 H2].
      * destruct cur; discriminate.
      * exfalso. specialize (H2 x (or_introl eq_refl)). congruence.
Qed.

(** Extra: a reference id made of whitespace only (the empty string
    included), whitespace being what [str.split()] splits on, Unicode
    whitespace such as U+00A0 and U+3000 included, makes
    [parse_api_refid_datetime] raise [IndexError] from [refid_split[-1]];
    any other reference id is either rejected with
    [ValueError("Invalid refid string.")] or handed, without its last four
    characters, to [strptime]. *)
Theorem refid_blank_index_error (strptime_refid : LiveApi.ustring -> result LiveApi.datetime)
    (refid : LiveApi.ustring) :
  ((forall c, In c refid -> LiveApi.is_space c = true) <->
   LiveApi.parse_api_refid_datetime strptime_refid refid =
     Err (PyExc "IndexError" "list index out of range") /\
   LiveApi.py_split refid = []) /\
  (LiveApi.py_split refid <> [] ->
   LiveApi.parse_api_refid_datetime strptime_refid refid =
     Err (PyExc "ValueError" "Invalid refid string.") \/
   LiveApi.parse_api_refid_datetime strptime_refid refid =
     strptime_refid (LiveApi.py_drop_last 4 refid)).
Proof.
  unfold LiveApi.parse_api_refid_datetime, LiveApi.py_split.
  split.
  - split.
    + intros Hs.
      assert (H0 : LiveApi.split_aux refid [] = [])
        by (apply split_aux_nil; split; [reflexivity|exact Hs]).
      rewrite H0; split; reflexivity.
    + intros [_ H0]. apply split_aux_nil in H0 as [_ H0]; exact H0.
  - intros Hne.
    destruct (last (LiveApi.split_aux refid [])) as [tok|] eqn:Hl;
      [|apply last_None in Hl; contradiction].
    match goal with
    | |- context [if ?b then _ else _] => destruct b; [left|right]; reflexivity
    end.
Qed.

#[local] Instance start_le_total : Total LiveApi.start_le.
Proof. intros r1 r2; unfold LiveApi.start_le; lia. Qed.

Lemma res_mapM_Forall2 {A C} (f : A -> result C) (l : list A) (ys : list C) :
  res_mapM f l = Ok ys -> Forall2 (fun x y => f x = Ok y) l ys.
Proof.
  revert ys; induction l as [|x l IH]; intros ys; simpl.
  - intros H; injection H as <-; constructor.
  - destruct (f x) as [y|] eqn:Hx; [|discriminate]; simpl.
    destruct (res_mapM f l) as [ys'|] eqn:Hl; [|discriminate]; simpl.
    intros H; injection H as <-; constructor; auto.
Qed.

Lemma res_mapM_err {A C} (f : A -> result C) (l : list A) x e :
  In x l -> f x = Err e ->
  exists e' x', res_mapM f l = Err e' /\ In x' l /\ f x' = Err e'.
Proof.
  induction l as [|x0 l IH]; intros Hin Hx; [destruct Hin|]; simpl.
  destruct (f x0) as [y0|e0] eqn:H0; simpl; [|exists e0, x0; auto].
  destruct Hin as [<-|Hin]; [congruence|].
  destruct (IH Hin Hx) as (e' & x' & Hl & Hin' & Hx').
  rewrite Hl; simpl. exists e', x'; auto.
Qed.

Lemma replace_time_ok (d : date) h m s :
  LiveApi.replace_time d h m = Ok s ->
  h < 24 /\ m < 60 /\ s = (day_start d + Z.of_nat (60 * h + m))%Z.
Proof.
  unfold LiveApi.replace_time.
  destruct (Nat.ltb_spec h 24), (Nat.ltb_spec m 60); simpl;
    try discriminate; intros Heq; injection Heq as <-; auto.
Qed.

Lemma replace_time_err (d : date) h m e :
  LiveApi.replace_time d h m = Err e -> exists msg, e = PyExc "ValueError" msg.
Proof.
  unfold LiveApi.replace_time.
  destruct (negb (Nat.ltb h 24)); [intros H; injection H as <-; eauto|].
  destruct (negb (Nat.ltb m 60)); [intros H; injection H as <-; eauto|].
  discriminate.
Qed.

Lemma frame_sorted_by_start_ok (rows tbl : table) :
  LiveApi.frame_sorted_by_start rows = Ok tbl ->
  tbl = @merge_sort _ LiveApi.start_le LiveApi.start_le_dec rows.
Proof.
  unfold LiveApi.frame_sorted_by_start.
  destruct rows; [discriminate|]. intros H; injection H as <-; reflexivity.
Qed.

(** Extra: for a live load payload with at least one five-minute entry
    (an empty one makes pandas raise [KeyError] on the missing [start]
    column), a parsed table has one row per entry, sorted by [start]; every
    row spans five minutes and starts within the day of the payload's
    reference id. *)
Theorem parse_load_api_data_rows (strptime_refid : LiveApi.ustring -> result LiveApi.datetime)
    (j : LiveApi.load_json) (tbl : table)
    (Hne : LiveApi.FiveMinTotalLoad j <> [])
    (H : LiveApi.parse_load_api_data strptime_refid j = Ok tbl) :
  exists t, LiveApi.parse_api_refid_datetime strptime_refid (LiveApi.RefId j) = Ok t /\
    Sorted LiveApi.start_le tbl /\
    length tbl = length (LiveApi.FiveMinTotalLoad j) /\
    Forall (fun r => end_ r = (start r + 5)%Z /\
      (day_start (LiveApi.dt_date t) <= start r <
       day_start (LiveApi.dt_date t) + 1440)%Z) tbl.
Proof.
  unfold LiveApi.parse_load_api_data in H.
  destruct (LiveApi.parse_api_refid_datetime strptime_refid (LiveApi.RefId j))
    as [t|] eqn:Ht; [|discriminate]; cbn [res_bind] in H.
  destruct (res_mapM _ (LiveApi.FiveMinTotalLoad j)) as [rows|] eqn:Hr;
    [|discriminate]; cbn [res_bind] in H. apply frame_sorted_by_start_ok in H.
  subst tbl. exists t. split; [reflexivity|].
  split; [exact (Sorted_merge_sort LiveApi.start_le (H := LiveApi.start_le_dec) rows)|].
  split.
  - transitivity (length rows); [apply Permutation_length, merge_sort_Permutation|].
    symmetry; exact (Forall2_length _ _ _ (res_mapM_Forall2 _ _ _ Hr)).
  - apply Forall_forall. intros r Hin.
    assert (Hin' : In r rows).
    { apply list_elem_of_In in Hin.
      exact (Permutation_in _ (merge_sort_Permutation LiveApi.start_le
               (H := LiveApi.start_le_dec) rows) Hin). }
    destruct (res_mapM_ok _ _ _ Hr r Hin') as ([[h m] v] & _ & Hx).
    destruct (LiveApi.replace_time (LiveApi.dt_date t) h m) as [s|] eqn:Hs;
      cbn [res_bind] in Hx; [|discriminate]. injection Hx as <-.
    apply replace_time_ok in Hs as (Hh & Hm & ->). cbn [start end_]. lia.
Qed.

(** A payload stamped 0001-01-01 00:00 EST; the stub [strptime] returns
    that instant. *)
Definition ex_refid : LiveApi.ustring :=
  LiveApi.ustr "01-Jan-0001 - Interval 00:00 EST".

Definition ex_strptime (_ : LiveApi.ustring) : result LiveApi.datetime :=
  Ok (LiveApi.mkDatetime hist_day 0 0).

Lemma parse_load_api_data_rows_witness :
  LiveApi.FiveMinTotalLoad (LiveApi.mkLoadJson ex_refid [(10, 5, 7%Z); (0, 0, 3%Z)] [])
    <> [] /\
  LiveApi.parse_load_api_data ex_strptime
    (LiveApi.mkLoadJson ex_refid [(10, 5, 7%Z); (0, 0, 3%Z)] []) =
    Ok [mkRow 528480 528485 None [300%Z]; mkRow 529085 529090 None [700%Z]] /\
  exists t, LiveApi.parse_api_refid_datetime ex_strptime ex_refid = Ok t /\
    Sorted LiveApi.start_le [mkRow 528480 528485 None [300%Z]; mkRow 529085 529090 None [700%Z]] /\
    length [mkRow 528480 528485 None [300%Z]; mkRow 529085 529090 None [700%Z]] = 2 /\
    Forall (fun r => end_ r = (start r + 5)%Z /\
      (day_start (LiveApi.dt_date t) <= start r <
       day_start (LiveApi.dt_date t) + 1440)%Z)
      [mkRow 528480 528485 None [300%Z]; mkRow 529085 529090 None [700%Z]].
Proof.
  assert (Hne : LiveApi.FiveMinTotalLoad
    (LiveApi.mkLoadJson ex_refid [(10, 5, 7%Z); (0, 0, 3%Z)] []) <> [])
    by discriminate.
  assert (H : LiveApi.parse_load_api_data ex_strptime
    (LiveApi.mkLoadJson ex_refid [(10, 5, 7%Z); (0, 0, 3%Z)] []) =
    Ok [mkRow 528480 528485 None [300%Z]; mkRow 529085 529090 None [700%Z]])
    by (vm_compute; reflexivity).
  split; [exact Hne|]. split; [exact H|].
  exact (parse_load_api_data_rows _ _ _ Hne H).
Defined.

(** Extra: once the reference id is parsed, a five-minute entry whose hour
    is not below 24 or whose minute is not below 60 makes the load parser
    raise [ValueError] (from [datetime.replace]) instead of returning a
    table. *)
Theorem parse_load_api_data_bad_time (strptime_refid : LiveApi.ustring -> result LiveApi.datetime)
    (j : LiveApi.load_json) (t : LiveApi.datetime) (h m : nat) (v : Z)
    (Ht : LiveApi.parse_api_refid_datetime strptime_refid (LiveApi.RefId j) = Ok t)
    (Hin : In (h, m, v) (LiveApi.FiveMinTotalLoad j))
    (Hbad : 24 <= h \/ 60 <= m) :
  exists msg, LiveApi.parse_load_api_data strptime_refid j =
    Err (PyExc "ValueError" msg).
Proof.
  unfold LiveApi.parse_load_api_data. rewrite Ht; cbn [res_bind].
  assert (Hx0 : exists msg0, LiveApi.replace_time (LiveApi.dt_date t) h m =
               Err (PyExc "ValueError" msg0)).
  { unfold LiveApi.replace_time.
    destruct (Nat.ltb_spec h 24), (Nat.ltb_spec m 60); simpl; try lia; eauto. }
  destruct Hx0 as [msg0 Hx].
  destruct (res_mapM_err (fun '(h, m, load) =>
      s <-? LiveApi.replace_time (LiveApi.dt_date t) h m ;;
      Ok (mkRow s (s + 5)%Z None [(100 * load)%Z]))
      (LiveApi.FiveMinTotalLoad j) (h, m, v) _ Hin
      ltac:(cbn; rewrite Hx; reflexivity)) as (e' & [[h' m'] v'] & Hl & _ & Hx').
  rewrite Hl; cbn [res_bind].
  destruct (LiveApi.replace_time (LiveApi.dt_date t) h' m') as [s|e''] eqn:He;
    cbn [res_bind] in Hx'; [discriminate|]. injection Hx' as <-.
  destruct (replace_time_err _ _ _ _ He) as [msg ->]. exists msg; reflexivity.
Qed.

Lemma parse_load_api_data_bad_time_witness :
  LiveApi.parse_api_refid_datetime ex_strptime ex_refid =
    Ok (LiveApi.mkDatetime hist_day 0 0) /\
  exists msg, LiveApi.parse_load_api_data ex_strptime
    (LiveApi.mkLoadJson ex_refid [(10, 5, 7%Z); (24, 0, 3%Z)] []) =
    Err (PyExc "ValueError" msg).
Proof.
  assert (Ht : LiveApi.parse_api_refid_datetime ex_strptime ex_refid =
    Ok (LiveApi.mkDatetime hist_day 0 0)) by (vm_compute; reflexivity).
  split; [exact Ht|].
  apply (parse_load_api_data_bad_time ex_strptime
    (LiveApi.mkLoadJson ex_refid [(10, 5, 7%Z); (24, 0, 3%Z)] [])
    (LiveApi.mkDatetime hist_day 0 0) 24 0 3%Z Ht);
    [right; left; reflexivity|left; lia].
Defined.

(** Extra: for a live forecast payload with at least one entry and every
    [HourEnding] at least 1, a parsed table has one row per entry, sorted by
    [start]; every row is the hour ending [he] of some entry [(he, f)] of
    the payload, with [1 <= he <= 24]: it starts [he - 1] hours after the
    midnight of the reference id's day, spans one hour and holds [f]. *)
Theorem parse_forecast_api_data_rows
    (strptime_refid : LiveApi.ustring -> result LiveApi.datetime)
    (j : LiveApi.load_json) (tbl : table)
    (Hne : LiveApi.MediumTermLoadForecast j <> [])
    (Hhe : forall he f, In (he, f) (LiveApi.MediumTermLoadForecast j) -> 1 <= he)
    (H : LiveApi.parse_forecast_api_data strptime_refid j = Ok tbl) :
  exists t, LiveApi.parse_api_refid_datetime strptime_refid (LiveApi.RefId j) = Ok t /\
    Sorted LiveApi.start_le tbl /\
    length tbl = length (LiveApi.MediumTermLoadForecast j) /\
    Forall (fun r => exists he f,
      In (he, f) (LiveApi.MediumTermLoadForecast j) /\ 1 <= he <= 24 /\
      start r = (day_start (LiveApi.dt_date t) + Z.of_nat (60 * (he - 1)))%Z /\
      end_ r = (start r + 60)%Z /\ vals r = [(100 * f)%Z]) tbl.
Proof.
  unfold LiveApi.parse_forecast_api_data in H.
  destruct (LiveApi.parse_api_refid_datetime strptime_refid (LiveApi.RefId j))
    as [t|] eqn:Ht; [|discriminate]; cbn [res_bind] in H.
  destruct (res_mapM _ (LiveApi.MediumTermLoadForecast j)) as [rows|] eqn:Hr;
    [|discriminate]; cbn [res_bind] in H. apply frame_sorted_by_start_ok in H.
  subst tbl. exists t. split; [reflexivity|].
  split; [exact (Sorted_merge_sort LiveApi.start_le (H := LiveApi.start_le_dec) rows)|].
  split.
  - transitivity (length rows); [apply Permutation_length, merge_sort_Permutation|].
    symmetry; exact (Forall2_length _ _ _ (res_mapM_Forall2 _ _ _ Hr)).
  - apply Forall_forall. intros r Hin.
    assert (Hin' : In r rows).
    { apply list_elem_of_In in Hin.
      exact (Permutation_in _ (merge_sort_Permutation LiveApi.start_le
               (H := LiveApi.start_le_dec) rows) Hin). }
    destruct (res_mapM_ok _ _ _ Hr r Hin') as ([he f] & Hx & Hfx).
    destruct (Nat.eqb_spec he 0) as [->|Hhe0]; [cbn in Hfx; discriminate|].
    destruct (LiveApi.replace_time (LiveApi.dt_date t) (he - 1) 0) as [s|] eqn:Hs;
      cbn [res_bind] in Hfx; [|discriminate]. injection Hfx as <-.
    apply replace_time_ok in Hs as (Hh & _ & ->).
    pose proof (Hhe he f Hx).
    exists he, f. cbn [start end_ vals].
    split; [exact Hx|]. split; [lia|].
    split; [rewrite Nat.add_0_r; reflexivity|]. split; reflexivity.
Qed.

Lemma parse_forecast_api_data_rows_witness :
  LiveApi.MediumTermLoadForecast (LiveApi.mkLoadJson ex_refid [] [(2, 9%Z); (1, 8%Z)])
    <> [] /\
  LiveApi.parse_forecast_api_data ex_strptime
    (LiveApi.mkLoadJson ex_refid [] [(2, 9%Z); (1, 8%Z)]) =
    Ok [mkRow 528480 528540 None [800%Z]; mkRow 528540 528600 None [900%Z]] /\
  exists t, LiveApi.parse_api_refid_datetime ex_strptime ex_refid = Ok t /\
    Sorted LiveApi.start_le [mkRow 528480 528540 None [800%Z]; mkRow 528540 528600 None [900%Z]] /\
    length [mkRow 528480 528540 None [800%Z]; mkRow 528540 528600 None [900%Z]] = 2 /\
    Forall (fun r => exists he f,
      In (he, f) [(2, 9%Z); (1, 8%Z)] /\ 1 <= he <= 24 /\
      start r = (day_start (LiveApi.dt_date t) + Z.of_nat (60 * (he - 1)))%Z /\
      end_ r = (start r + 60)%Z /\ vals r = [(100 * f)%Z])
      [mkRow 528480 528540 None [800%Z]; mkRow 528540 528600 None [900%Z]].
Proof.
  assert (Hne : LiveApi.MediumTermLoadForecast
    (LiveApi.mkLoadJson ex_refid [] [(2, 9%Z); (1, 8%Z)]) <> []) by discriminate.
  assert (Hhe : forall he f, In (he, f) (LiveApi.MediumTermLoadForecast
    (LiveApi.mkLoadJson ex_refid [] [(2, 9%Z); (1, 8%Z)])) -> 1 <= he).
  { intros he f Hin; destruct Hin as [E|[E|[]]]; injection E as <- _; lia. }
  assert (H : LiveApi.parse_forecast_api_data ex_strptime
    (LiveApi.mkLoadJson ex_refid [] [(2, 9%Z); (1, 8%Z)]) =
    Ok [mkRow 528480 528540 None [800%Z]; mkRow 528540 528600 None [900%Z]])
    by (vm_compute; reflexivity).
  split; [exact Hne|]. split; [exact H|].
  exact (parse_forecast_api_data_rows _ _ _ Hne Hhe H).
Defined.

(** ** The "latest" load *)

Lemma parse_load_api_data_sorted (strptime_refid : LiveApi.ustring -> result LiveApi.datetime)
    (j : LiveApi.load_json) (df : table) :
  LiveApi.parse_load_api_data strptime_refid j = Ok df ->
  Sorted LiveApi.start_le df.
Proof.
  unfold LiveApi.parse_load_api_data.
  destruct (LiveApi.parse_api_refid_datetime _ _) as [t|]; [|discriminate];
    cbn [res_bind].
  destruct (res_mapM _ _) as [rows|]; [|discriminate]; cbn [res_bind].
  intros H; apply frame_sorted_by_start_ok in H; subst df.
  exact (Sorted_merge_sort LiveApi.start_le (H := LiveApi.start_le_dec) rows).
Qed.

#[local] Instance start_le_trans : Transitive LiveApi.start_le.
Proof. intros r1 r2 r3; unfold LiveApi.start_le; lia. Qed.

Lemma sorted_last_max (l : table) (r : row) :
  Sorted LiveApi.start_le l -> last l = Some r ->
  forall r', In r' l -> (start r' <= start r)%Z.
Proof.
  intros Hs. apply Sorted_StronglySorted in Hs; [|exact start_le_trans].
  induction Hs as [|a l Hs IH Ha]; [discriminate|].
  destruct l as [|b l].
  - cbn; intros Heq; injection Heq as <-. intros r' [<-|[]]; lia.
  - intros Hl r' [<-|Hin].
    + change (last (a :: b :: l)) with (last (b :: l)) in Hl.
      apply last_Some_elem_of, list_elem_of_In in Hl.
      rewrite Forall_forall in Ha. apply list_elem_of_In in Hl.
      exact (Ha r Hl).
    + exact (IH Hl r' Hin).
Qed.

(** Extra: [get_load_data("latest")] fetches the live load payload and
    returns at most one row: a row of the parsed payload with the greatest
    start, and one whenever the payload has any row. *)
Theorem latest_load_is_latest_interval
    (net : string -> nat -> result LiveApi.load_json) unzip finish_time
    (strptime_refid : LiveApi.ustring -> result LiveApi.datetime)
    (parse_forecast_and_load_market_report : LiveApi.load_json -> result table)
    (t : table)
    (H : snd (get_load_data net unzip finish_time
               (LiveApi.parse_load_api_data strptime_refid)
               parse_forecast_and_load_market_report DLatest) = Ok t) :
  exists k j df, net LOAD_API_URL k = Ok j /\
    LiveApi.parse_load_api_data strptime_refid j = Ok df /\
    length t <= 1 /\ (df <> [] -> t <> []) /\
    forall r, In r t -> In r df /\ forall r', In r' df -> (start r' <= start r)%Z.
Proof.
  unfold get_load_data in H. rewrite io_bind_snd in H.
  destruct (fetch_attempt_spec net LOAD_API_URL (MAX_ATTEMPTS - 1) 1)
    as (m & _ & _ & _ & Hs & _).
  unfold _fetch in H.
  destruct (snd (fetch_attempt net LOAD_API_URL (MAX_ATTEMPTS - 1) 1)) as [j|e];
    [|discriminate].
  rewrite io_bind_snd in H; cbn [io_lift snd] in H.
  destruct (LiveApi.parse_load_api_data strptime_refid j) as [df|e] eqn:Hp;
    [|discriminate]. cbn in H. injection H as <-.
  exists (1 + m - 1), j, df. split; [symmetry; exact Hs|]. split; [exact Hp|].
  pose proof (parse_load_api_data_sorted _ _ _ Hp) as Hsort.
  unfold last_row. destruct (last df) as [r|] eqn:Hl.
  - split; [cbn; lia|]. split; [discriminate|].
    intros r' [<-|[]]. split.
    + apply list_elem_of_In, last_Some_elem_of, Hl.
    + exact (sorted_last_max df r Hsort Hl).
  - apply last_None in Hl. split; [cbn; lia|]. split; [contradiction|].
    intros r [].
Qed.

(** A live endpoint that serves the payload with the 10:05 and 00:00
    entries of 0001-01-01. *)
Definition ex_load_net (_ : string) (_ : nat) : result LiveApi.load_json :=
  Ok (LiveApi.mkLoadJson ex_refid [(10, 5, 7%Z); (0, 0, 3%Z)] []).

Lemma latest_load_is_latest_interval_witness :
  snd (get_load_data ex_load_net (fun _ => None) (fun _ => 0)
         (LiveApi.parse_load_api_data ex_strptime) (fun _ => Ok [])
         DLatest) = Ok [mkRow 529085 529090 None [700%Z]] /\
  exists k j df, ex_load_net LOAD_API_URL k = Ok j /\
    LiveApi.parse_load_api_data ex_strptime j = Ok df /\
    length [mkRow 529085 529090 None [700%Z]] <= 1 /\
    (df <> [] -> [mkRow 529085 529090 None [700%Z]] <> []) /\
    forall r, In r [mkRow 529085 529090 None [700%Z]] ->
      In r df /\ forall r', In r' df -> (start r' <= start r)%Z.
Proof.
  assert (H : snd (get_load_data ex_load_net (fun _ => None) (fun _ => 0)
         (LiveApi.parse_load_api_data ex_strptime) (fun _ => Ok [])
         DLatest) = Ok [mkRow 529085 529090 None [700%Z]])
    by (vm_compute; reflexivity).
  split; [exact H|]. exact (latest_load_is_latest_interval _ _ _ _ _ _ H).
Defined.

(** ** Joining urls ([BaseClient.urljoin]) *)

Lemma lstrip_slash_spec (l : list ascii) :
  exists i, l = app (repeat "/"%char i) (lstrip_slash l) /\
    (forall c l', lstrip_slash l = c :: l' -> c <> "/"%char).
Proof.
  induction l as [|c l IH]; cbn [lstrip_slash].
  - exists 0; split; [reflexivity|discriminate].
  - destruct (Ascii.eqb_spec c "/") as [->|Hc].
    + destruct IH as (i & Hi & Hh). exists (S i).
      split; [cbn [repeat app]; f_equal; exact Hi|exact Hh].
    + exists 0. split; [reflexivity|]. intros c' l' E; injection E as -> _.
      exact Hc.
Qed.

Lemma rev_repeat_ascii (c : ascii) (n : nat) : rev (repeat c n) = repeat c n.
Proof.
  induction n as [|n IH]; [reflexivity|]. cbn [repeat rev]. rewrite IH.
  clear IH. induction n as [|n IH]; [reflexivity|]. cbn [repeat app].
  rewrite IH; reflexivity.
Qed.

(** Extra: [urljoin(a, b)] is [a.strip("/") + "/" + b.strip("/")], and
    each part loses exactly its leading and trailing runs of [/]: the part
    is those runs around its stripped form, which neither starts nor ends
    with [/]. *)
Theorem urljoin_strips_parts (a b : string) :
  urljoin [a; b] = strip_slash a ++ "/" ++ strip_slash b /\
  forall s, exists i j,
    list_ascii_of_string s =
      app (repeat "/"%char i)
        (app (list_ascii_of_string (strip_slash s)) (repeat "/"%char j)) /\
    (forall c l, list_ascii_of_string (strip_slash s) = c :: l -> c <> "/"%char) /\
    (forall c l, list_ascii_of_string (strip_slash s) = app l [c] -> c <> "/"%char).
Proof.
  split; [reflexivity|]. intros s.
  unfold strip_slash. rewrite list_ascii_of_string_of_list_ascii.
  destruct (lstrip_slash_spec (list_ascii_of_string s)) as (i & Hi & Hh1).
  set (A := lstrip_slash (list_ascii_of_string s)) in *.
  destruct (lstrip_slash_spec (rev A)) as (j & Hj & Hh2).
  set (Bq := lstrip_slash (rev A)) in *.
  assert (HA : A = app (rev Bq) (repeat "/"%char j)).
  { rewrite <- (rev_involutive A), Hj, rev_app_distr, rev_repeat_ascii.
    reflexivity. }
  exists i, j. split; [|split].
  - rewrite Hi at 1. rewrite HA. reflexivity.
  - intros c l E. apply (Hh1 c (app l (repeat "/"%char j))).
    rewrite HA, E. reflexivity.
  - intros c l E. apply (Hh2 c (rev l)).
    rewrite <- (rev_involutive Bq), E, rev_app_distr. reflexivity.
Qed.
